(** * A multi-tier TTL cache manager: shallow embedding of
      [app/core/cache_manager.py] and verification of its documented
      behaviour.

    The development follows the Python module top to bottom:
    - [MD5]: the digest behind [hashlib.md5(...).hexdigest()], over
      32-bit words held in [Z] with the wrap-around written out;
    - the Python runtime the module relies on ([str], [json.dumps],
      [json.loads], float formatting) and the Redis client, both as
      interfaces (type classes), because neither is code of the module;
    - [CacheManager] with its methods in a small state/exception monad
      that also records every call made to the Redis client;
    - the [cached] decorator;
    - statements and proofs.

    Conventions.
    - Clock readings ([time.time()]) and TTLs are integers ([Z]); a
      method takes the readings of the clock it makes as its first
      arguments, in the order it makes them.
    - Logging is left out.
    - A Python [str] is a [string]; a character is a code point below
      256, and [encode] spells out UTF-8 for it. *)

From Stdlib Require Import ZArith QArith Qabs String Ascii List Permutation Sorted Lia.
From stdpp Require Import gmap strings pretty.
Import ListNotations.

Local Open Scope string_scope.
Local Open Scope Z_scope.

(** ** hashlib.md5 *)

Module MD5.

(** 32-bit words are integers in [0, 2^32). *)
Definition wrap32 (x : Z) : Z := x mod 4294967296.

Definition add32 (x y : Z) : Z := wrap32 (x + y).

Definition not32 (x : Z) : Z := Z.lxor x 4294967295.

Definition rotl32 (x : Z) (c : Z) : Z :=
  wrap32 (Z.lor (Z.shiftl x c) (Z.shiftr x (32 - c))).

(** Per-round left rotations. *)
Definition shifts : list Z :=
  [7; 12; 17; 22; 7; 12; 17; 22; 7; 12; 17; 22; 7; 12; 17; 22;
   5;  9; 14; 20; 5;  9; 14; 20; 5;  9; 14; 20; 5;  9; 14; 20;
   4; 11; 16; 23; 4; 11; 16; 23; 4; 11; 16; 23; 4; 11; 16; 23;
   6; 10; 15; 21; 6; 10; 15; 21; 6; 10; 15; 21; 6; 10; 15; 21].

(** The sine table: [floor (2^32 * abs (sin (i + 1)))]. *)
Definition sines : list Z :=
  [0xd76aa478; 0xe8c7b756; 0x242070db; 0xc1bdceee;
   0xf57c0faf; 0x4787c62a; 0xa8304613; 0xfd469501;
   0x698098d8; 0x8b44f7af; 0xffff5bb1; 0x895cd7be;
   0x6b901122; 0xfd987193; 0xa679438e; 0x49b40821;
   0xf61e2562; 0xc040b340; 0x265e5a51; 0xe9b6c7aa;
   0xd62f105d; 0x02441453; 0xd8a1e681; 0xe7d3fbc8;
   0x21e1cde6; 0xc33707d6; 0xf4d50d87; 0x455a14ed;
   0xa9e3e905; 0xfcefa3f8; 0x676f02d9; 0x8d2a4c8a;
   0xfffa3942; 0x8771f681; 0x6d9d6122; 0xfde5380c;
   0xa4beea44; 0x4bdecfa9; 0xf6bb4b60; 0xbebfbc70;
   0x289b7ec6; 0xeaa127fa; 0xd4ef3085; 0x04881d05;
   0xd9d4d039; 0xe6db99e5; 0x1fa27cf8; 0xc4ac5665;
   0xf4292244; 0x432aff97; 0xab9423a7; 0xfc93a039;
   0x655b59c3; 0x8f0ccc92; 0xffeff47d; 0x85845dd1;
   0x6fa87e4f; 0xfe2ce6e0; 0xa3014314; 0x4e0811a1;
   0xf7537e82; 0xbd3af235; 0x2ad7d2bb; 0xeb86d391].

(** Message padding: a 1 bit, zeros up to 56 mod 64, then the bit length
    as a little-endian 64-bit integer. *)
Definition le_bytes (n : nat) (x : Z) : list Z :=
  map (fun i => Z.land (Z.shiftr x (8 * Z.of_nat i)) 255) (seq 0 n).

Definition pad (msg : list Z) : list Z :=
  let len := Z.of_nat (List.length msg) in
  let zeros := Z.to_nat ((55 - len) mod 64) in
  msg ++ [128] ++ repeat 0 zeros ++ le_bytes 8 ((8 * len) mod 18446744073709551616).

(** Little-endian 32-bit word starting at byte [4 * i] of a block. *)
Definition word_at (block : list Z) (i : Z) : Z :=
  let b k := nth (Z.to_nat (4 * i + k)) block 0 in
  Z.lor (b 0) (Z.lor (Z.shiftl (b 1) 8) (Z.lor (Z.shiftl (b 2) 16) (Z.shiftl (b 3) 24))).

Record state := State { sa : Z; sb : Z; sc : Z; sd : Z }.

Definition init : state :=
  State 0x67452301 0xefcdab89 0x98badcfe 0x10325476.

(** One of the 64 operations on a block. *)
Definition step (block : list Z) (st : state) (i : nat) : state :=
  let '(State a b c d) := st in
  let zi := Z.of_nat i in
  let '(f, g) :=
    if zi <? 16 then (Z.lor (Z.land b c) (Z.land (not32 b) d), zi)
    else if zi <? 32 then (Z.lor (Z.land d b) (Z.land (not32 d) c), (5 * zi + 1) mod 16)
    else if zi <? 48 then (Z.lxor b (Z.lxor c d), (3 * zi + 5) mod 16)
    else (Z.lxor c (Z.lor b (not32 d)), (7 * zi) mod 16) in
  let f' := add32 (add32 (add32 f a) (nth i sines 0)) (word_at block g) in
  State d (add32 b (rotl32 f' (nth i shifts 0))) b c.

Definition compress (st : state) (block : list Z) : state :=
  let '(State a b c d) := fold_left (step block) (seq 0 64) st in
  State (add32 (sa st) a) (add32 (sb st) b) (add32 (sc st) c) (add32 (sd st) d).

Fixpoint blocks (n : nat) (bytes : list Z) : list (list Z) :=
  match n with
  | O => []
  | S n' => firstn 64 bytes :: blocks n' (skipn 64 bytes)
  end.

Definition digest_state (msg : list Z) : state :=
  let padded := pad msg in
  fold_left compress (blocks (List.length padded / 64) padded) init.

(** The 16 digest bytes. *)
Definition digest (msg : list Z) : list Z :=
  let st := digest_state msg in
  le_bytes 4 (sa st) ++ le_bytes 4 (sb st) ++ le_bytes 4 (sc st) ++ le_bytes 4 (sd st).

Definition hex_digit (n : Z) : ascii :=
  nth (Z.to_nat (n mod 16))
      ["0"; "1"; "2"; "3"; "4"; "5"; "6"; "7"; "8"; "9"; "a"; "b"; "c"; "d"; "e"; "f"]%char
      "0"%char.

Definition hex_byte (b : Z) : string :=
  String (hex_digit (b / 16)) (String (hex_digit b) EmptyString).

Fixpoint hex (bytes : list Z) : string :=
  match bytes with
  | [] => EmptyString
  | b :: rest => hex_byte b ++ hex rest
  end.

(** [hashlib.md5(data).hexdigest()]. *)
Definition hexdigest (data : list Z) : string := hex (digest data).

End MD5.

(** [s.encode()]: UTF-8 of a string of code points below 256. *)
Fixpoint encode (s : string) : list Z :=
  match s with
  | EmptyString => []
  | String c rest =>
      let n := Z.of_nat (nat_of_ascii c) in
      (if n <? 128 then [n] else [192 + n / 64; 128 + n mod 64]) ++ encode rest
  end.


(** ** The Python runtime

    What the module takes from the interpreter and its standard library.
    A value is [None] or any other object; the objects form a type [O]
    the development is generic in. *)

Inductive value (O : Type) : Type :=
| PyNone
| PyObj (o : O).

Arguments PyNone {O}.
Arguments PyObj {O} o.

(** [x is None]. *)
Definition is_none {O : Type} (v : value O) : bool :=
  match v with PyNone => true | PyObj _ => false end.

(** - [py_str v] is [str(v)], which is also what an f-string field
      [{v}] produces;
    - [json_dumps v] is [json.dumps(v, default=str, ensure_ascii=False)],
      with [None] when it raises [TypeError] or [ValueError];
    - [json_loads s] is [json.loads(s)], with [None] when it raises;
    - [format_2f q] is [f"{q:.2f}"]. *)
Class Runtime (O : Type) := {
  py_str : value O -> string;
  json_dumps : value O -> option string;
  json_loads : string -> option (value O);
  format_2f : Q -> string
}.

(** Exceptions that cross a function boundary in the module. *)
Inductive exn : Type :=
| RedisError            (* raised by a Redis client call *)
| AttributeError        (* attribute access on [None] *)
| JSONDecodeError       (* raised by [json.loads] *)
| UserError (tag : Z).  (* raised by a wrapped function *)

Inductive result (A : Type) : Type :=
| Ok (a : A)
| Raise (e : exn).

Arguments Ok {A} a.
Arguments Raise {A} e.

(** ** The Redis client

    [redis.Redis] with [decode_responses=True], as far as the module
    calls it. A client has a state of type [R]; every call may raise and
    returns the client's next state. [redis_scan_iter pattern] yields a
    list of keys and then either ends or raises. *)
Class RedisClient (R : Type) := {
  redis_get : string -> R -> result (option string) * R;
  redis_setex : string -> Z -> string -> R -> result unit * R;
  redis_delete : string -> R -> result unit * R;
  redis_scan_iter : string -> R -> (list string * result unit) * R;
  redis_flushdb : R -> result unit * R
}.

(** The calls the module makes to the client, in the order made. *)
Inductive redis_call : Type :=
| CallGet (key : string)
| CallSetex (key : string) (ttl : Z) (payload : string)
| CallDelete (key : string)
| CallScanIter (pattern : string)
| CallFlushdb.

(** ** Data held by a manager *)

(** [{'value': ..., 'expiry': ...}] *)
Record cached_item (O : Type) : Type := CachedItem {
  item_value : value O;
  item_expiry : Z
}.

Arguments CachedItem {O} _ _.
Arguments item_value {O} _.
Arguments item_expiry {O} _.

(** [self.cache_stats] *)
Record stats : Type := Stats {
  hits : Z;
  misses : Z;
  memory_hits : Z;
  redis_hits : Z
}.

Record CacheManager (O R : Type) : Type := Manager {
  redis_client : option R;
  memory_cache : gmap string (cached_item O);
  cache_stats : stats
}.

Arguments Manager {O R} _ _ _.
Arguments redis_client {O R} _.
Arguments memory_cache {O R} _.
Arguments cache_stats {O R} _.

(** What [get_stats] returns. *)
Record stats_report : Type := Report {
  report_hits : Z;
  report_misses : Z;
  report_memory_hits : Z;
  report_redis_hits : Z;
  hit_rate : string;
  memory_cache_size : Z
}.

(** [self.ttl_config] *)
Definition ttl_config : gmap string Z :=
  list_to_map
    [("stock_data", 300); ("technical_indicators", 600); ("analysis_result", 900);
     ("market_scan", 1800); ("news", 600); ("fundamental", 3600);
     ("capital_flow", 900); ("quick", 60); ("long", 7200)].

(** [self.ttl_config.get(cache_type, 300)] *)
Definition ttl_config_get (cache_type : string) : Z :=
  default 300 (ttl_config !! cache_type).

(** ** Strings *)

(** [s[:n]] *)
Definition slice_to (n : nat) (s : string) : string := substring 0 n s.

(** [sep.join(parts)] *)
Fixpoint join (sep : string) (parts : list string) : string :=
  match parts with
  | [] => EmptyString
  | p :: rest =>
      match rest with
      | [] => p
      | _ :: _ => p ++ sep ++ join sep rest
      end
  end.

(** [sub in s] for two strings. *)
Fixpoint contains (sub s : string) : bool :=
  String.prefix sub s ||
  match s with
  | EmptyString => false
  | String _ rest => contains sub rest
  end.

(** Truth value of a [str]. *)
Definition str_truthy (s : string) : bool :=
  match s with EmptyString => false | String _ _ => true end.

(** Truth value of an [Optional[str]]. *)
Definition opt_truthy (o : option string) : bool :=
  match o with Some s => str_truthy s | None => false end.

(** [sorted(kwargs.items())]: the names of a call's keyword arguments
    are distinct, so the order is the order of the names. *)
Fixpoint insert_sorted {A : Type} (x : string * A) (l : list (string * A)) : list (string * A) :=
  match l with
  | [] => [x]
  | y :: rest => if String.leb (fst x) (fst y) then x :: y :: rest else y :: insert_sorted x rest
  end.

Fixpoint sorted {A : Type} (items : list (string * A)) : list (string * A) :=
  match items with
  | [] => []
  | x :: rest => insert_sorted x (sorted rest)
  end.

(** ** A state, exception and call-trace monad

    A computation runs on a state [S], ends with a value or a raised
    exception, leaves the state as it is at that point (Python does not
    roll back), and reports the Redis calls it made. *)

Definition M (S A : Type) : Type := S -> result A * S * list redis_call.

Definition ret {S A : Type} (a : A) : M S A :=
  fun s => (Ok a, s, []).

Definition raise {S A : Type} (e : exn) : M S A :=
  fun s => (Raise e, s, []).

Definition bind {S A B : Type} (m : M S A) (k : A -> M S B) : M S B :=
  fun s =>
    match m s with
    | (Ok a, s1, calls1) =>
        match k a s1 with
        | (r, s2, calls2) => (r, s2, (calls1 ++ calls2)%list)
        end
    | (Raise e, s1, calls1) => (Raise e, s1, calls1)
    end.

(** [try: body / except Exception: handler] *)
Definition try_except {S A : Type} (body : M S A) (handler : exn -> M S A) : M S A :=
  fun s =>
    match body s with
    | (Ok a, s1, calls1) => (Ok a, s1, calls1)
    | (Raise e, s1, calls1) =>
        match handler e s1 with
        | (r, s2, calls2) => (r, s2, (calls1 ++ calls2)%list)
        end
    end.

Definition get_state {S : Type} : M S S :=
  fun s => (Ok s, s, []).

Definition modify {S : Type} (f : S -> S) : M S unit :=
  fun s => (Ok tt, f s, []).

Notation "'let!' x ':=' m 'in' k" := (bind m (fun x => k))
  (at level 10, x pattern, m at level 100, k at level 200).
Notation "m ';;' k" := (bind m (fun _ => k))
  (at level 100, k at level 200, right associativity).

(** [for x in l: body(x)] *)
Fixpoint for_each {S A : Type} (l : list A) (body : A -> M S unit) : M S unit :=
  match l with
  | [] => ret tt
  | x :: rest => body x ;; for_each rest body
  end.

(** ** class CacheManager *)

Module CacheManager.
Section Methods.
Context {O R : Type} {PY : Runtime O} {RC : RedisClient R}.

(** [CacheManager(redis_client)] *)
Definition __init__ (redis_client : option R) : CacheManager O R :=
  Manager redis_client ∅ (Stats 0 0 0 0).

(** *** Attribute updates *)

(** [self.memory_cache[key] = item] *)
Definition memory_cache_setitem (key : string) (item : cached_item O) : M (CacheManager O R) unit :=
  modify (fun self => Manager (redis_client self) (<[key := item]> (memory_cache self)) (cache_stats self)).

(** [del self.memory_cache[key]], for a key the dict holds. *)
Definition memory_cache_delitem (key : string) : M (CacheManager O R) unit :=
  modify (fun self => Manager (redis_client self) (base.delete key (memory_cache self)) (cache_stats self)).

(** [self.cache_stats['hits'] += 1; self.cache_stats['memory_hits'] += 1] *)
Definition count_memory_hit : M (CacheManager O R) unit :=
  modify (fun self =>
    let st := cache_stats self in
    Manager (redis_client self) (memory_cache self)
            (Stats (hits st + 1) (misses st) (memory_hits st + 1) (redis_hits st))).

(** [self.cache_stats['hits'] += 1; self.cache_stats['redis_hits'] += 1] *)
Definition count_redis_hit : M (CacheManager O R) unit :=
  modify (fun self =>
    let st := cache_stats self in
    Manager (redis_client self) (memory_cache self)
            (Stats (hits st + 1) (misses st) (memory_hits st) (redis_hits st + 1))).

(** [self.cache_stats['misses'] += 1] *)
Definition count_miss : M (CacheManager O R) unit :=
  modify (fun self =>
    let st := cache_stats self in
    Manager (redis_client self) (memory_cache self)
            (Stats (hits st) (misses st + 1) (memory_hits st) (redis_hits st))).

(** *** Calls on [self.redis_client]

    Each is recorded in the trace; on a manager without a client the
    attribute access on [None] raises. *)
Definition on_client {A : Type} (call : redis_call) (op : R -> result A * R) : M (CacheManager O R) A :=
  fun self =>
    match redis_client self with
    | Some r =>
        match op r with
        | (res, r') => (res, Manager (Some r') (memory_cache self) (cache_stats self), [call])
        end
    | None => (Raise AttributeError, self, [])
    end.

Definition client_get (key : string) : M (CacheManager O R) (option string) :=
  on_client (CallGet key) (redis_get key).

Definition client_setex (key : string) (ttl : Z) (payload : string) : M (CacheManager O R) unit :=
  on_client (CallSetex key ttl payload) (redis_setex key ttl payload).

Definition client_delete (key : string) : M (CacheManager O R) unit :=
  on_client (CallDelete key) (redis_delete key).

Definition client_scan_iter (pattern : string) : M (CacheManager O R) (list string * result unit) :=
  on_client (CallScanIter pattern) (fun r => let '(ks, r') := redis_scan_iter pattern r in (Ok ks, r')).

Definition client_flushdb : M (CacheManager O R) unit :=
  on_client CallFlushdb redis_flushdb.

(** [json.loads(cached)] inside a [try]. *)
Definition loads (payload : string) : M (CacheManager O R) (value O) :=
  match json_loads payload with
  | Some v => ret v
  | None => raise JSONDecodeError
  end.

(** *** _generate_cache_key *)

(** The string the key is derived from:
    [":".join([prefix] + [str(a) for a in args] + [f"{k}={v}" for k, v in sorted(kwargs.items())])] *)
Definition key_str (prefix : string) (args : list (value O)) (kwargs : list (string * value O)) : string :=
  let key_parts :=
    ([prefix] ++ map py_str args
              ++ map (fun kv => fst kv ++ "=" ++ py_str (snd kv))%string (sorted kwargs))%list in
  join ":" key_parts.

Definition _generate_cache_key (prefix : string) (args : list (value O))
    (kwargs : list (string * value O)) : string :=
  let key_str := key_str prefix args kwargs in
  slice_to 16 (MD5.hexdigest (encode key_str)) ++ "_" ++ slice_to 50 key_str.

(** *** get

    [now] is the clock when the expiry of the entry in memory is tested,
    [refill] the clock when an entry that came from Redis is written to
    memory. *)

Definition get (now refill : Z) (key : string) (cache_type : string)
    : M (CacheManager O R) (value O) :=
  let! self := get_state in
  (* the memory cache first *)
  let! from_memory :=
    match memory_cache self !! key with
    | Some cached_item =>
        if item_expiry cached_item >? now then
          count_memory_hit ;; ret (Some (item_value cached_item))
        else
          memory_cache_delitem key ;; ret None
    | None => ret None
    end in
  match from_memory with
  | Some v => ret v
  | None =>
      (* then Redis *)
      let! from_redis :=
        match redis_client self with
        | Some _ =>
            try_except
              (let! cached := client_get key in
               if opt_truthy cached then
                 let! value := loads (default EmptyString cached) in
                 let ttl := ttl_config_get cache_type in
                 memory_cache_setitem key (CachedItem value (refill + Z.min ttl 300)) ;;
                 count_redis_hit ;;
                 ret (Some value)
               else ret None)
              (fun _ => ret None)
        | None => ret None
        end in
      match from_redis with
      | Some v => ret v
      | None => count_miss ;; ret PyNone
      end
  end.

(** *** set *)

Definition set (now : Z) (key : string) (value : value O) (cache_type : string)
    (ttl : option Z) : M (CacheManager O R) unit :=
  let ttl := match ttl with
             | None => ttl_config_get cache_type
             | Some t => t
             end in
  memory_cache_setitem key (CachedItem value (now + Z.min ttl 300)) ;;
  let! self := get_state in
  match redis_client self with
  | Some _ =>
      match json_dumps value with
      | None => ret tt
      | Some payload => try_except (client_setex key ttl payload) (fun _ => ret tt)
      end
  | None => ret tt
  end.

(** *** delete *)

Definition delete (key : string) : M (CacheManager O R) unit :=
  let! self := get_state in
  (match memory_cache self !! key with
   | Some _ => memory_cache_delitem key
   | None => ret tt
   end) ;;
  match redis_client self with
  | Some _ => try_except (client_delete key) (fun _ => ret tt)
  | None => ret tt
  end.

(** *** clear *)

Definition clear (pattern : option string) : M (CacheManager O R) unit :=
  let! self := get_state in
  if opt_truthy pattern then
    let pattern := default EmptyString pattern in
    let keys_to_delete :=
      List.filter (fun k => contains pattern k) (map fst (map_to_list (memory_cache self))) in
    for_each keys_to_delete memory_cache_delitem ;;
    match redis_client self with
    | Some _ =>
        try_except
          (let! it := client_scan_iter ("*" ++ pattern ++ "*") in
           for_each (fst it) client_delete ;;
           match snd it with
           | Ok _ => ret tt
           | Raise e => raise e
           end)
          (fun _ => ret tt)
    | None => ret tt
    end
  else
    modify (fun self => Manager (redis_client self) ∅ (cache_stats self)) ;;
    match redis_client self with
    | Some _ => try_except client_flushdb (fun _ => ret tt)
    | None => ret tt
    end.

(** *** get_stats *)

(** [(hits / total * 100) if total > 0 else 0], before formatting. *)
Definition hit_rate_percent (st : stats) : Q :=
  let total := hits st + misses st in
  if total >? 0 then (inject_Z (hits st) / inject_Z total * 100)%Q else 0%Q.

Definition get_stats : M (CacheManager O R) stats_report :=
  let! self := get_state in
  let st := cache_stats self in
  ret (Report (hits st) (misses st) (memory_hits st) (redis_hits st)
              (format_2f (hit_rate_percent st) ++ "%")
              (Z.of_nat (size (memory_cache self)))).

(** *** cleanup_expired *)

Definition cleanup_expired (now : Z) : M (CacheManager O R) Z :=
  let! self := get_state in
  let current_time := now in
  let expired_keys :=
    map fst (List.filter (fun kv => item_expiry (snd kv) <=? current_time)
                         (map_to_list (memory_cache self))) in
  for_each expired_keys memory_cache_delitem ;;
  ret (Z.of_nat (List.length expired_keys)).

End Methods.
End CacheManager.

(** ** The [cached] decorator *)

(** A function to wrap: its names, and its body as a transition on a
    state [F] of its own (it may raise, and it may answer differently
    from one call to the next). *)
Record callable (O F : Type) : Type := Callable {
  __module__ : string;
  __name__ : string;
  __call__ : list (value O) -> list (string * value O) -> F -> result (value O) * F
}.

Arguments Callable {O F} _ _ _.
Arguments __module__ {O F} _.
Arguments __name__ {O F} _.
Arguments __call__ {O F} _ _ _ _.

(** The object whose method is wrapped: [cache_manager] is [None] when
    the object has no such attribute. [func_calls] counts the calls of
    the wrapped function. *)
Record Owner (O R F : Type) : Type := MkOwner {
  cache_manager : option (CacheManager O R);
  func_state : F;
  func_calls : nat
}.

Arguments MkOwner {O R F} _ _ _.
Arguments cache_manager {O R F} _.
Arguments func_state {O R F} _.
Arguments func_calls {O R F} _.

Section Decorator.
Context {O R F : Type} {PY : Runtime O} {RC : RedisClient R}.

(** [func(self, *args, **kwargs)] *)
Definition call_func (func : callable O F) (args : list (value O))
    (kwargs : list (string * value O)) : M (Owner O R F) (value O) :=
  fun self =>
    match __call__ func args kwargs (func_state self) with
    | (res, fs) => (res, MkOwner (cache_manager self) fs (S (func_calls self)), [])
    end.

(** A method call on [self.cache_manager]. *)
Definition on_cache_manager {A : Type} (m : M (CacheManager O R) A) : M (Owner O R F) A :=
  fun self =>
    match cache_manager self with
    | Some mgr =>
        match m mgr with
        | (res, mgr', calls) => (res, MkOwner (Some mgr') (func_state self) (func_calls self), calls)
        end
    | None => (Raise AttributeError, self, [])
    end.

(** [cached(cache_type, ttl, key_prefix)(func)(self, *args, **kwargs)];
    [now] and [refill] are the readings of the clock in the lookup and
    [now'] is the reading when the result is stored. *)
Definition cached (cache_type : string) (ttl : option Z) (key_prefix : option string)
    (func : callable O F) (now refill now' : Z) (args : list (value O))
    (kwargs : list (string * value O)) : M (Owner O R F) (value O) :=
  let! self := get_state in
  match cache_manager self with
  | None => call_func func args kwargs
  | Some _ =>
      let prefix :=
        if opt_truthy key_prefix then default EmptyString key_prefix
        else (__module__ func ++ "." ++ __name__ func)%string in
      let cache_key := CacheManager._generate_cache_key prefix args kwargs in
      let! cached_value := on_cache_manager (CacheManager.get now refill cache_key cache_type) in
      if negb (is_none cached_value) then ret cached_value
      else
        let! result := call_func func args kwargs in
        (if negb (is_none result)
         then on_cache_manager (CacheManager.set now' cache_key result cache_type ttl)
         else ret tt) ;;
        ret result
  end.

End Decorator.

(** ** Concrete runtimes and clients

    Used to run the model on concrete inputs. *)

(** *** A runtime for [None], [bool], [int] and [str] values *)

Inductive scalar : Type :=
| SBool (b : bool)
| SInt (n : Z)
| SStr (s : string).

Definition dquote : ascii := "034"%char.
Definition backslash : ascii := "092"%char.

Definition code (c : ascii) : Z := Z.of_nat (nat_of_ascii c).

Definition scalar_str (v : value scalar) : string :=
  match v with
  | PyNone => "None"
  | PyObj (SBool true) => "True"
  | PyObj (SBool false) => "False"
  | PyObj (SInt n) => pretty n
  | PyObj (SStr s) => s
  end.

(** The body of a JSON string literal, [ensure_ascii=False]. *)
Fixpoint json_escape (s : string) : string :=
  match s with
  | EmptyString => EmptyString
  | String c rest =>
      (if Ascii.eqb c dquote then String backslash (String dquote EmptyString)
       else if Ascii.eqb c backslash then String backslash (String backslash EmptyString)
       else if code c =? 10 then String backslash "n"
       else if code c =? 13 then String backslash "r"
       else if code c =? 9 then String backslash "t"
       else if code c =? 8 then String backslash "b"
       else if code c =? 12 then String backslash "f"
       else if code c <? 32 then
         String backslash ("u00" ++ MD5.hex_byte (code c))
       else String c EmptyString) ++ json_escape rest
  end.

Definition scalar_dumps (v : value scalar) : option string :=
  Some match v with
       | PyNone => "null"
       | PyObj (SBool true) => "true"
       | PyObj (SBool false) => "false"
       | PyObj (SInt n) => pretty n
       | PyObj (SStr s) => String dquote (json_escape s ++ String dquote EmptyString)
       end.

Definition digit_of (c : ascii) : option Z :=
  let n := code c in
  if (48 <=? n) && (n <=? 57) then Some (n - 48) else None.

Definition hex_of (c : ascii) : option Z :=
  let n := code c in
  if (48 <=? n) && (n <=? 57) then Some (n - 48)
  else if (97 <=? n) && (n <=? 102) then Some (n - 87)
  else if (65 <=? n) && (n <=? 70) then Some (n - 55)
  else None.

Fixpoint parse_digits (s : string) (acc : Z) : option Z :=
  match s with
  | EmptyString => Some acc
  | String c rest =>
      match digit_of c with
      | Some d => parse_digits rest (10 * acc + d)
      | None => None
      end
  end.

(** An integer literal: an optional minus sign, then 0 or digits with no
    leading 0. *)
Definition parse_int (s : string) : option Z :=
  let unsigned (t : string) :=
    match t with
    | EmptyString => None
    | String c rest =>
        if Ascii.eqb c "0" && str_truthy rest then None else parse_digits t 0
    end in
  match s with
  | String "-" rest => Z.opp <$> unsigned rest
  | _ => unsigned s
  end.

(** The rest of a string literal after its opening quote; nothing may
    follow the closing quote. Escapes above code point 255 have no
    counterpart in [string] and are refused. *)
Fixpoint parse_string_body (s : string) : option string :=
  match s with
  | EmptyString => None
  | String c rest =>
      if Ascii.eqb c dquote then
        match rest with EmptyString => Some EmptyString | String _ _ => None end
      else if Ascii.eqb c backslash then
        match rest with
        | String e rest' =>
            let simple (x : ascii) := String x <$> parse_string_body rest' in
            if Ascii.eqb e dquote then simple dquote
            else if Ascii.eqb e backslash then simple backslash
            else if Ascii.eqb e "/" then simple "/"%char
            else if Ascii.eqb e "n" then simple "010"%char
            else if Ascii.eqb e "r" then simple "013"%char
            else if Ascii.eqb e "t" then simple "009"%char
            else if Ascii.eqb e "b" then simple "008"%char
            else if Ascii.eqb e "f" then simple "012"%char
            else if Ascii.eqb e "u" then
              match rest' with
              | String h1 (String h2 (String h3 (String h4 rest''))) =>
                  match hex_of h1, hex_of h2, hex_of h3, hex_of h4 with
                  | Some 0, Some 0, Some x, Some y =>
                      String (ascii_of_nat (Z.to_nat (16 * x + y))) <$> parse_string_body rest''
                  | _, _, _, _ => None
                  end
              | _ => None
              end
            else None
        | EmptyString => None
        end
      else if code c <? 32 then None
      else String c <$> parse_string_body rest
  end.

(** [json.loads] on the documents [scalar_dumps] writes; any other
    document is refused. *)
Definition scalar_loads (s : string) : option (value scalar) :=
  if String.eqb s "null" then Some PyNone
  else if String.eqb s "true" then Some (PyObj (SBool true))
  else if String.eqb s "false" then Some (PyObj (SBool false))
  else match s with
       | String c rest =>
           if Ascii.eqb c dquote then (fun t => PyObj (SStr t)) <$> parse_string_body rest
           else (fun n => PyObj (SInt n)) <$> parse_int s
       | EmptyString => None
       end.

(** Two decimals, rounding half to even, on the exact rational. *)
Definition round_hundredths (q : Q) : Z :=
  let x := Qnum q * 100 in
  let d := Zpos (Qden q) in
  let fl := x / d in
  let rem := x mod d in
  if 2 * rem <? d then fl
  else if d <? 2 * rem then fl + 1
  else if Z.even fl then fl else fl + 1.

Definition render_hundredths (q : Q) : string :=
  let n := Z.abs (round_hundredths q) in
  let frac := n mod 100 in
  let sign := if Qnum q <? 0 then "-" else EmptyString in
  (sign ++ pretty (n / 100) ++ "." ++ pretty (frac / 10) ++ pretty (frac mod 10))%string.

#[export] Instance scalar_runtime : Runtime scalar := {
  py_str := scalar_str;
  json_dumps := scalar_dumps;
  json_loads := scalar_loads;
  format_2f := render_hundredths
}.

(** *** Redis clients *)

(** [MATCH] patterns of Redis: [*] any run of characters, [?] any one
    character, a backslash takes the next character literally. Bracket
    classes are left out. *)
Fixpoint glob_match (pattern s : string) {struct pattern} : bool :=
  match pattern with
  | EmptyString => negb (str_truthy s)
  | String c pattern' =>
      if Ascii.eqb c "*" then
        (fix star (s : string) : bool :=
           glob_match pattern' s ||
           match s with
           | EmptyString => false
           | String _ s' => star s'
           end) s
      else if Ascii.eqb c "?" then
        match s with
        | EmptyString => false
        | String _ s' => glob_match pattern' s'
        end
      else if Ascii.eqb c backslash then
        match pattern' with
        | String c' pattern'' =>
            match s with
            | EmptyString => false
            | String d s' => Ascii.eqb c' d && glob_match pattern'' s'
            end
        | EmptyString =>
            match s with
            | EmptyString => false
            | String d s' => Ascii.eqb c d && negb (str_truthy s')
            end
        end
      else
        match s with
        | EmptyString => false
        | String d s' => Ascii.eqb c d && glob_match pattern' s'
        end
  end.

(** A server in memory: every key with its TTL and payload. [setex]
    refuses a TTL that is not positive, as the server does. *)
Definition fake_redis : Type := gmap string (Z * string).

#[export] Instance fake_redis_client : RedisClient fake_redis := {
  redis_get key r := (Ok (snd <$> r !! key), r);
  redis_setex key ttl payload r :=
    if ttl <=? 0 then (Raise RedisError, r) else (Ok tt, <[key := (ttl, payload)]> r);
  redis_delete key r := (Ok tt, base.delete key r);
  redis_scan_iter pattern r :=
    ((List.filter (glob_match pattern) (map fst (map_to_list r)), Ok tt), r);
  redis_flushdb r := (Ok tt, ∅)
}.

(** A server that cannot be reached: every call raises. *)
Inductive down_redis : Type := Down.


(** ** Vocabulary of the statements *)


Definition all_chars (p : ascii -> bool) (s : string) : bool :=
  forallb p (list_ascii_of_string s).

(** A pattern none of whose characters is special in a Redis [MATCH]. *)
Definition is_glob_special (c : ascii) : bool :=
  Ascii.eqb c "*" || Ascii.eqb c "?" || Ascii.eqb c "[" || Ascii.eqb c backslash.

Definition plain (pattern : string) : bool :=
  all_chars (fun c => negb (is_glob_special c)) pattern.

(** A dict after [del] of each key of a list, in order. *)
Definition without_keys {A : Type} (keys : list string) (d : gmap string A) : gmap string A :=
  fold_left (fun m k => base.delete k m) keys d.







(** Calls on a manager, one after the other. *)
Inductive operation (O : Type) : Type :=
| OpGet (now refill : Z) (key cache_type : string)
| OpSet (now : Z) (key : string) (v : value O) (cache_type : string) (ttl : option Z)
| OpDelete (key : string)
| OpClear (pattern : option string)
| OpGetStats
| OpCleanupExpired (now : Z).

Arguments OpGet {O} _ _ _ _.
Arguments OpSet {O} _ _ _ _ _.
Arguments OpDelete {O} _.
Arguments OpClear {O} _.
Arguments OpGetStats {O}.
Arguments OpCleanupExpired {O} _.



Section Traces.
Context {O R F : Type} {PY : Runtime O} {RC : RedisClient R}.

Definition perform (op : operation O) : M (CacheManager O R) unit :=
  match op with
  | OpGet now refill key cache_type => CacheManager.get now refill key cache_type ;; ret tt
  | OpSet now key v cache_type ttl => CacheManager.set now key v cache_type ttl
  | OpDelete key => CacheManager.delete key
  | OpClear pattern => CacheManager.clear pattern
  | OpGetStats => CacheManager.get_stats ;; ret tt
  | OpCleanupExpired now => CacheManager.cleanup_expired now ;; ret tt
  end.

Definition run (ops : list (operation O)) : M (CacheManager O R) unit :=
  for_each ops perform.



End Traces.

(** ** Vocabulary of the invariants *)

(** The clock reading an operation computes an expiry from, if it
    writes the memory cache at all: the reading at the refill for a
    [get], the reading of [set]. *)
Definition written_at {O : Type} (op : operation O) : option Z :=
  match op with
  | OpGet _ refill _ _ => Some refill
  | OpSet now _ _ _ _ => Some now
  | _ => None
  end.

(** No operation of the list writes at a reading after [T]. *)
Definition clock_bounded {O : Type} (T : Z) (ops : list (operation O)) : Prop :=
  Forall (fun op => match written_at op with Some t => t <= T | None => True end) ops.

(** The three ways a [get] counts itself. *)
Definition memory_hit_counted (st : stats) : stats :=
  Stats (hits st + 1) (misses st) (memory_hits st + 1) (redis_hits st).

Definition redis_hit_counted (st : stats) : stats :=
  Stats (hits st + 1) (misses st) (memory_hits st) (redis_hits st + 1).

Definition miss_counted (st : stats) : stats :=
  Stats (hits st) (misses st + 1) (memory_hits st) (redis_hits st).

(** ** create_cache_manager *)

(** [os.getenv(name, default)] on an environment. *)
Definition os_getenv (environ : gmap string string) (name default_value : string) : string :=
  default default_value (environ !! name).

(** [c.lower()] for a code point below 256: the letters A to Z and the
    capital letters of Latin-1 (192 to 222, but not the multiplication
    sign 215) move up by 32. *)
Definition lower_char (c : ascii) : ascii :=
  let n := code c in
  if ((65 <=? n) && (n <=? 90)) || ((192 <=? n) && (n <=? 222) && negb (n =? 215))
  then ascii_of_nat (Z.to_nat (n + 32))
  else c.

(** [s.lower()] *)
Fixpoint lower (s : string) : string :=
  match s with
  | EmptyString => EmptyString
  | String c rest => String (lower_char c) (lower rest)
  end.

(** The [redis] package as [create_cache_manager] uses it:
    [redis_installed] tells whether [import redis] succeeds,
    [redis_from_url url] is [redis.from_url(url, decode_responses=True)]
    and [redis_ping] the [ping()] of the client it returned. *)
Class RedisPackage (R : Type) := {
  redis_installed : bool;
  redis_from_url : string -> result R;
  redis_ping : R -> result unit * R
}.

(** The calls made to the package, in the order made. *)
Inductive package_call : Type :=
| CallFromUrl (url : string)
| CallPing.

(** [create_cache_manager()]: the manager, and the calls made to the
    [redis] package on the way. *)
Definition create_cache_manager {O R : Type} {RP : RedisPackage R}
    (environ : gmap string string) : CacheManager O R * list package_call :=
  let '(redis_client, calls) :=
    if String.eqb (lower (os_getenv environ "USE_REDIS_CACHE" "False")) "true" then
      if redis_installed then
        let redis_url := os_getenv environ "REDIS_URL" "redis://localhost:6379/0" in
        match redis_from_url redis_url with
        | Ok redis_client =>
            match redis_ping redis_client with
            | (Ok _, redis_client) => (Some redis_client, [CallFromUrl redis_url; CallPing])
            | (Raise _, _) => (None, [CallFromUrl redis_url; CallPing])
            end
        | Raise _ => (None, [CallFromUrl redis_url])
        end
      else (None, [])
    else (None, []) in
  (CacheManager.__init__ redis_client, calls).

(** A package whose server accepts every connection, and one that has
    no server to reach. *)
Definition fake_redis_package : RedisPackage fake_redis := {|
  redis_installed := true;
  redis_from_url _ := Ok ∅;
  redis_ping r := (Ok tt, r)
|}.

Definition down_redis_package : RedisPackage down_redis := {|
  redis_installed := true;
  redis_from_url _ := Ok Down;
  redis_ping r := (Raise RedisError, r)
|}.

(** * app/core/performance_monitor.py

    Durations and clock readings are floats in the module. A float
    that is a number is held as the rational it stands for, so that
    comparisons, [min] and [max] are exact; infinity, which the module
    uses as the first [min_time], is [None]. The arithmetic that rounds
    (sum, difference, quotient, product) and the formatting are taken
    from the interpreter through the class [Floats]. The lock is left
    out: the calls are made one after the other. *)

Class Floats := {
  float_add : Q -> Q -> Q;
  float_sub : Q -> Q -> Q;
  float_mul : Q -> Q -> Q;
  float_div : Q -> Q -> Q;
  (** [f"{x:.3f}"] and [f"{x:.2f}"] *)
  format_3f : Q -> string;
  format_percent : Q -> string
}.

(** [x < y] on numbers. *)
Definition Qlt_bool (x y : Q) : bool := negb (Qle_bool y x).

(** One entry of [self.metrics]. *)
Record metric : Type := Metric {
  count : Z;
  total_time : Q;
  min_time : option Q;
  max_time : Q;
  errors : Z
}.

(** One entry of [self.slow_queries]. *)
Record slow_query : Type := SlowQuery {
  name : string;
  duration : Q;
  timestamp : string
}.

Record PerformanceMonitor : Type := Monitor {
  metrics : gmap string metric;
  slow_query_threshold : Q;
  slow_queries : list slow_query
}.

(** One entry of what [get_metrics] returns. *)
Record metric_report : Type := MetricReport {
  report_count : Z;
  report_avg_time : string;
  report_min_time : string;
  report_max_time : string;
  report_total_time : string;
  report_errors : Z;
  report_error_rate : string
}.

(** What the [defaultdict] makes for a name it does not hold. *)
Definition new_metric : metric := Metric 0 0 None 0 0.

(** [min(m, d)] where [m] may be infinity, and [max(m, d)]: the first
    argument is returned unless the second is smaller (larger). *)
Definition py_min (m : option Q) (d : Q) : option Q :=
  match m with
  | None => Some d
  | Some m => if Qlt_bool d m then Some d else Some m
  end.

Definition py_max (m d : Q) : Q := if Qlt_bool m d then d else m.

(** [l[start:]] *)
Definition slice_from {A : Type} (start : Z) (l : list A) : list A :=
  let len := Z.of_nat (List.length l) in
  let first := if start <? 0 then Z.max 0 (len + start) else Z.min start len in
  skipn (Z.to_nat first) l.

(** [sorted(l, key=lambda x: x['duration'], reverse=True)]: the sort is
    stable, also in reverse. *)
Fixpoint insert_by_duration (x : slow_query) (l : list slow_query) : list slow_query :=
  match l with
  | [] => [x]
  | y :: rest =>
      if Qlt_bool (duration x) (duration y) then y :: insert_by_duration x rest
      else x :: y :: rest
  end.

Fixpoint sorted_by_duration (l : list slow_query) : list slow_query :=
  match l with
  | [] => []
  | x :: rest => insert_by_duration x (sorted_by_duration rest)
  end.

Module PerformanceMonitor.
Section Methods.
Context {FL : Floats}.

Definition __init__ : PerformanceMonitor := Monitor ∅ 1 [].

(** [now] is [datetime.now().isoformat()], read when the call is slow. *)
Definition record_metric (name : string) (duration : Q) (success : bool) (now : string)
    (self : PerformanceMonitor) : PerformanceMonitor :=
  let metric := default new_metric (metrics self !! name) in
  let metric :=
    Metric (count metric + 1)
           (float_add (total_time metric) duration)
           (py_min (min_time metric) duration)
           (py_max (max_time metric) duration)
           (if negb success then errors metric + 1 else errors metric) in
  let slow_queries :=
    if Qlt_bool (slow_query_threshold self) duration then
      let slow_queries := (slow_queries self ++ [SlowQuery name duration now])%list in
      if 100 <? Z.of_nat (List.length slow_queries) then slice_from (-100) slow_queries
      else slow_queries
    else slow_queries self in
  Monitor (<[name := metric]> (metrics self)) (slow_query_threshold self) slow_queries.

(** The result is a dict; it is held as a map, without the order of
    its keys. *)
Definition get_metrics (self : PerformanceMonitor) : gmap string metric_report :=
  (fun data =>
     let avg_time :=
       if count data >? 0 then float_div (total_time data) (inject_Z (count data)) else 0%Q in
     MetricReport
       (count data)
       (format_3f avg_time ++ "s")
       (match min_time data with
        | Some m => format_3f m ++ "s"
        | None => "N/A"
        end)
       (format_3f (max_time data) ++ "s")
       (format_3f (total_time data) ++ "s")
       (errors data)
       (if count data >? 0
        then format_percent
               (float_mul (float_div (inject_Z (errors data)) (inject_Z (count data))) 100) ++ "%"
        else "0%"))
  <$> metrics self.

Definition get_slow_queries (limit : Z) (self : PerformanceMonitor) : list slow_query :=
  sorted_by_duration (slice_from (- limit) (slow_queries self)).

Definition reset_metrics (self : PerformanceMonitor) : PerformanceMonitor :=
  Monitor ∅ (slow_query_threshold self) [].

End Methods.
End PerformanceMonitor.

(** ** The [monitor_performance] decorator

    The monitor is a global of the module, so the wrapped function may
    record in it too, as when it calls other monitored functions: it
    runs on the monitor together with a state [F] of its own.
    [start_time] and [end_time] are the two readings of the clock,
    [now] is as in [record_metric]. *)
Definition monitor_performance {FL : Floats} {O F : Type} (metric_name : option string)
    (func : callable O (PerformanceMonitor * F)) (start_time end_time : Q) (now : string)
    (args : list (value O)) (kwargs : list (string * value O))
    (world : PerformanceMonitor * F) : result (value O) * (PerformanceMonitor * F) :=
  let name :=
    if opt_truthy metric_name then default EmptyString metric_name
    else (__module__ func ++ "." ++ __name__ func)%string in
  let '(result, (performance_monitor, func_state)) := __call__ func args kwargs world in
  let success := match result with Ok _ => true | Raise _ => false end in
  let duration := float_sub end_time start_time in
  (result,
   (PerformanceMonitor.record_metric name duration success now performance_monitor, func_state)).

(** Floats without rounding, for running the model. Three decimals are
    rounded half to even on the exact rational, as two are in
    [round_hundredths]. *)
Definition round_thousandths (q : Q) : Z :=
  let x := Qnum q * 1000 in
  let d := Zpos (Qden q) in
  let fl := x / d in
  let rem := x mod d in
  if 2 * rem <? d then fl
  else if d <? 2 * rem then fl + 1
  else if Z.even fl then fl else fl + 1.

Definition render_thousandths (q : Q) : string :=
  let n := Z.abs (round_thousandths q) in
  let frac := n mod 1000 in
  let sign := if Qnum q <? 0 then "-" else EmptyString in
  (sign ++ pretty (n / 1000) ++ "." ++ pretty (frac / 100) ++ pretty (frac / 10 mod 10)
        ++ pretty (frac mod 10))%string.

Definition exact_floats : Floats := {|
  float_add := Qplus;
  float_sub := Qminus;
  float_mul := Qmult;
  float_div := Qdiv;
  format_3f := render_thousandths;
  format_percent := render_hundredths
|}.

(** A call of [record_metric], and a list of them made in order. *)
Record recording : Type := Recording {
  recorded_name : string;
  recorded_duration : Q;
  recorded_success : bool;
  recorded_at : string
}.

Definition record_all {FL : Floats} (recordings : list recording)
    (self : PerformanceMonitor) : PerformanceMonitor :=
  fold_left
    (fun self r =>
       PerformanceMonitor.record_metric (recorded_name r) (recorded_duration r)
                                        (recorded_success r) (recorded_at r) self)
    recordings self.


Definition slow_ones (threshold : Q) (recordings : list recording) : list slow_query :=
  map (fun r => SlowQuery (recorded_name r) (recorded_duration r) (recorded_at r))
      (List.filter (fun r => Qlt_bool threshold (recorded_duration r)) recordings).


(** * app/core/database.py

    The session and the query are objects of SQLAlchemy; the module is
    modelled over their interfaces. *)

(** Exceptions, as far as the module tells them apart: those that
    derive from [Exception], and [KeyboardInterrupt], which does not. *)
Inductive py_exn : Type :=
| ZeroDivisionError
| SQLAlchemyError (tag : Z)      (* raised by a session or a query *)
| ApplicationError (tag : Z)     (* raised by the code inside a [with] block *)
| KeyboardInterrupt.

(** [isinstance(e, Exception)] *)
Definition is_exception (e : py_exn) : bool :=
  match e with
  | KeyboardInterrupt => false
  | _ => true
  end.

Inductive completion (A : Type) : Type :=
| Returned (a : A)
| Raised (e : py_exn).

Arguments Returned {A} a.
Arguments Raised {A} e.

(** A session, with a state of type [S]: each call may raise. *)
Class SessionOps (S : Type) := {
  session_commit : S -> completion unit * S;
  session_rollback : S -> completion unit * S;
  session_close : S -> completion unit * S
}.

Inductive session_call : Type :=
| CallCommit
| CallRollback
| CallClose.

(** [with db_session_scope() as session: body]: what the block ends
    with, the session afterwards, and the calls made on it by the
    context manager. *)
Definition db_session_scope {S A : Type} {SO : SessionOps S}
    (body : S -> completion A * S) (session : S) : completion A * S * list session_call :=
  (* try: yield session; session.commit() *)
  let '(tried, session, calls) :=
    match body session with
    | (Returned a, session) =>
        match session_commit session with
        | (Returned _, session) => (Returned a, session, [CallCommit])
        | (Raised e, session) => (Raised e, session, [CallCommit])
        end
    | (Raised e, session) => (Raised e, session, [])
    end in
  (* except Exception: session.rollback(); raise *)
  let '(handled, session, calls) :=
    match tried with
    | Raised e =>
        if is_exception e then
          match session_rollback session with
          | (Returned _, session) => (Raised e, session, (calls ++ [CallRollback])%list)
          | (Raised e', session) => (Raised e', session, (calls ++ [CallRollback])%list)
          end
        else (tried, session, calls)
    | Returned _ => (tried, session, calls)
    end in
  (* finally: session.close() *)
  match session_close session with
  | (Returned _, session) => (handled, session, (calls ++ [CallClose])%list)
  | (Raised e', session) => (Raised e', session, (calls ++ [CallClose])%list)
  end.

(** A query: [count()], and [limit(n).offset(k).all()]. *)
Class Query (T Row : Type) := {
  query_count : T -> completion Z;
  query_limit_offset_all : Z -> Z -> T -> completion (list Row)
}.

Inductive query_call : Type :=
| CallCount
| CallAll (limit offset : Z).

(** The dict [query_with_pagination] returns. *)
Record pagination (Row : Type) : Type := Pagination {
  items : list Row;
  total : Z;
  page : Z;
  per_page : Z;
  pages : Z
}.

Arguments Pagination {Row} _ _ _ _ _.
Arguments items {Row} _.
Arguments total {Row} _.
Arguments page {Row} _.
Arguments per_page {Row} _.
Arguments pages {Row} _.

(** [//] of two integers. *)
Definition floordiv (a b : Z) : completion Z :=
  if b =? 0 then Raised ZeroDivisionError else Returned (a / b).

Definition query_with_pagination {T Row : Type} {QY : Query T Row}
    (query : T) (page per_page : Z) : completion (pagination Row) * list query_call :=
  match query_count query with
  | Raised e => (Raised e, [CallCount])
  | Returned total =>
      let fetch := [CallCount; CallAll per_page ((page - 1) * per_page)] in
      match query_limit_offset_all per_page ((page - 1) * per_page) query with
      | Raised e => (Raised e, fetch)
      | Returned items =>
          match floordiv (total + per_page - 1) per_page with
          | Raised e => (Raised e, fetch)
          | Returned pages => (Returned (Pagination items total page per_page pages), fetch)
          end
      end
  end.

(** A table in memory, queried as SQLite does: a negative [LIMIT]
    is no limit, a negative [OFFSET] is none. *)
Definition table_query (Row : Type) : Query (list Row) Row := {|
  query_count rows := Returned (Z.of_nat (List.length rows));
  query_limit_offset_all limit offset rows :=
    let after := skipn (Z.to_nat offset) rows in
    Returned (if limit <? 0 then after else firstn (Z.to_nat limit) after)
|}.


(** A session that records nothing and never fails. *)
Definition quiet_session : SessionOps unit := {|
  session_commit s := (Returned tt, s);
  session_rollback s := (Returned tt, s);
  session_close s := (Returned tt, s)
|}.

(** * Proofs *)

(** ** Strings *)

Lemma append_String (c : ascii) (s t : string) :
  (String c s ++ t)%string = String c (s ++ t).
Proof. reflexivity. Qed.

Lemma append_empty_l (t : string) : (EmptyString ++ t)%string = t.
Proof. reflexivity. Qed.

Lemma length_append (s t : string) :
  String.length (s ++ t) = (String.length s + String.length t)%nat.
Proof. induction s as [|c s IH]; simpl; [reflexivity | now rewrite IH]. Qed.

Lemma slice_to_length (n : nat) (s : string) :
  String.length (slice_to n s) = Nat.min n (String.length s).
Proof.
  unfold slice_to. revert s.
  induction n as [|n IH]; intros [|c s]; simpl; try reflexivity.
  now rewrite IH.
Qed.

Lemma slice_to_all (n : nat) (s : string) :
  (String.length s <= n)%nat -> slice_to n s = s.
Proof.
  unfold slice_to. revert s.
  induction n as [|n IH]; intros [|c s]; simpl; intros Hlen; try reflexivity; try lia.
  f_equal. apply IH. lia.
Qed.



(** Two strings that start with equally long heads agree on the heads
    and on what follows them. *)
Lemma append_inj_length (a b s t : string) :
  String.length a = String.length b -> (a ++ s = b ++ t)%string -> a = b /\ s = t.
Proof.
  revert b. induction a as [|c a IH]; intros [|d b]; simpl; intros Hlen Heq;
    try discriminate; [now split|].
  injection Heq as -> Heq. injection Hlen as Hlen.
  destruct (IH b Hlen Heq) as [-> ->]. now split.
Qed.

Lemma append_inj_l (a s t : string) : (a ++ s = a ++ t)%string -> s = t.
Proof. intros H. now apply (append_inj_length a a s t). Qed.



(** ** MD5: shape of the hexadecimal digest *)

(** The digest on known inputs, and a key as Python derives it. *)
Example md5_empty : MD5.hexdigest (encode "") = "d41d8cd98f00b204e9800998ecf8427e".
Proof. vm_compute. reflexivity. Qed.

Example md5_abc : MD5.hexdigest (encode "abc") = "900150983cd24fb0d6963f7d28e17f72".
Proof. vm_compute. reflexivity. Qed.

Example md5_md : MD5.hexdigest (encode "message digest") = "f96b697d7cb7938d525a2f31aaf161d0".
Proof. vm_compute. reflexivity. Qed.

Example md5_two_blocks :
  MD5.hexdigest (encode "xxxxxxxxxxxxxxxxxxxxxxxxxxxxxxxxxxxxxxxxxxxxxxxxxxxxxxxx")
    = "668a72d5ba17f08e62dabcafad6db14b".
Proof. vm_compute. reflexivity. Qed.

Example generate_cache_key_example :
  CacheManager._generate_cache_key "quotes" [PyObj (SStr "600519")]
      [("period", PyObj (SStr "1y")); ("adjust", PyObj (SStr "qfq"))]
    = "f1c266ae83bdce9c_quotes:600519:adjust=qfq:period=1y".
Proof. vm_compute. reflexivity. Qed.



Lemma hex_length (bytes : list Z) :
  String.length (MD5.hex bytes) = (2 * List.length bytes)%nat.
Proof.
  induction bytes as [|b bytes IH]; [reflexivity|].
  cbn [MD5.hex]. rewrite length_append, IH. unfold MD5.hex_byte. simpl. lia.
Qed.


Lemma hexdigest_length (data : list Z) : String.length (MD5.hexdigest data) = 32%nat.
Proof. unfold MD5.hexdigest. rewrite hex_length. reflexivity. Qed.

(** ** Sorting keyword arguments *)


Section Sorting.
Context {A : Type}.
Implicit Types (x y : string * A) (l : list (string * A)).







End Sorting.

(** ** The methods, case by case *)

Lemma ttl_config_get_bounds (cache_type : string) :
  60 <= ttl_config_get cache_type <= 7200.
Proof.
  unfold ttl_config_get, ttl_config. cbn [list_to_map foldr uncurry fst snd].
  repeat (rewrite lookup_insert; destruct (decide _) as [_|_]; [simpl; lia|]).
  rewrite lookup_empty. simpl. lia.
Qed.

Lemma ttl_config_get_unknown (cache_type : string) :
  ttl_config !! cache_type = None -> ttl_config_get cache_type = 300.
Proof. unfold ttl_config_get. now intros ->. Qed.

Example ttl_config_table :
  map ttl_config_get
      ["stock_data"; "technical_indicators"; "analysis_result"; "market_scan"; "news";
       "fundamental"; "capital_flow"; "quick"; "long"; "no_such_category"]
    = [300; 600; 900; 1800; 600; 3600; 900; 60; 7200; 300].
Proof. vm_compute. reflexivity. Qed.

Ltac unfold_monad :=
  unfold bind, ret, raise, try_except, get_state, modify,
    CacheManager.memory_cache_setitem, CacheManager.memory_cache_delitem,
    CacheManager.count_memory_hit, CacheManager.count_redis_hit, CacheManager.count_miss,
    CacheManager.client_get, CacheManager.client_setex, CacheManager.client_delete,
    CacheManager.client_scan_iter, CacheManager.client_flushdb,
    CacheManager.on_client, CacheManager.loads in *.

Section MethodFacts.
Context {O R : Type} {PY : Runtime O} {RC : RedisClient R}.
Implicit Types (self : CacheManager O R) (key cache_type : string) (now refill : Z).

(** An unexpired entry is served from memory and the client is left alone. *)
Lemma get_memory_hit now refill key cache_type self item :
  memory_cache self !! key = Some item ->
  now < item_expiry item ->
  CacheManager.get now refill key cache_type self =
    (Ok (item_value item),
     Manager (redis_client self) (memory_cache self)
             (Stats (hits (cache_stats self) + 1) (misses (cache_stats self))
                    (memory_hits (cache_stats self) + 1) (redis_hits (cache_stats self))),
     []).
Proof.
  intros Hitem Hlive. unfold CacheManager.get. unfold_monad. cbn.
  rewrite Hitem. replace (item_expiry item >? now) with true by (symmetry; lia).
  reflexivity.
Qed.

(** An expired entry is dropped, and the call goes on as if the key had
    never been in memory. *)
Lemma get_expired now refill key cache_type self item :
  memory_cache self !! key = Some item ->
  item_expiry item <= now ->
  CacheManager.get now refill key cache_type self =
    CacheManager.get now refill key cache_type
      (Manager (redis_client self) (base.delete key (memory_cache self)) (cache_stats self)).
Proof.
  intros Hitem Hdead. unfold CacheManager.get. unfold_monad. cbn.
  rewrite Hitem, lookup_delete_eq.
  replace (item_expiry item >? now) with false by (symmetry; lia).
  cbn. destruct (redis_client self) as [r|]; reflexivity.
Qed.

(** Without a client a key that is not in memory is a miss. *)
Lemma get_absent_local now refill key cache_type self :
  memory_cache self !! key = None ->
  redis_client self = None ->
  CacheManager.get now refill key cache_type self =
    (Ok PyNone,
     Manager None (memory_cache self)
             (Stats (hits (cache_stats self)) (misses (cache_stats self) + 1)
                    (memory_hits (cache_stats self)) (redis_hits (cache_stats self))),
     []).
Proof.
  intros Hnone Hrc. unfold CacheManager.get. unfold_monad. cbn.
  rewrite Hnone, !Hrc. reflexivity.
Qed.

(** A payload from the client that [json.loads] accepts is returned and
    written to memory. *)
Lemma get_redis_hit now refill key cache_type self r r' payload v :
  memory_cache self !! key = None ->
  redis_client self = Some r ->
  redis_get key r = (Ok (Some payload), r') ->
  str_truthy payload = true ->
  json_loads payload = Some v ->
  CacheManager.get now refill key cache_type self =
    (Ok v,
     Manager (Some r')
             (<[key := CachedItem v (refill + Z.min (ttl_config_get cache_type) 300)]> (memory_cache self))
             (Stats (hits (cache_stats self) + 1) (misses (cache_stats self))
                    (memory_hits (cache_stats self)) (redis_hits (cache_stats self) + 1)),
     [CallGet key]).
Proof.
  intros Hnone Hrc Hget Htruthy Hloads. unfold CacheManager.get. unfold_monad. cbn.
  rewrite Hnone, Hrc. cbn. rewrite Hrc, Hget. cbn. rewrite Htruthy, Hloads. reflexivity.
Qed.

(** Whatever else the client does (it raises, it has nothing, what it
    has is empty or is not JSON), the call is a miss. *)
Lemma get_redis_miss now refill key cache_type self r :
  memory_cache self !! key = None ->
  redis_client self = Some r ->
  (forall payload, fst (redis_get key r) = Ok (Some payload) ->
     str_truthy payload = false \/ json_loads payload = None) ->
  CacheManager.get now refill key cache_type self =
    (Ok PyNone,
     Manager (Some (snd (redis_get key r))) (memory_cache self)
             (Stats (hits (cache_stats self)) (misses (cache_stats self) + 1)
                    (memory_hits (cache_stats self)) (redis_hits (cache_stats self))),
     [CallGet key]).
Proof.
  intros Hnone Hrc Hmiss. unfold CacheManager.get. unfold_monad. cbn.
  rewrite Hnone, Hrc. cbn. rewrite Hrc.
  destruct (redis_get key r) as [[[payload|]|e] r'] eqn:Hget; cbn; try reflexivity.
  destruct (Hmiss payload eq_refl) as [Hempty|Hbad].
  - rewrite Hempty. reflexivity.
  - destruct (str_truthy payload); [|reflexivity]. rewrite Hbad. reflexivity.
Qed.

(** [get] for a key that is not in memory: it returns, counts the call
    once, and not as a memory hit. *)
Lemma get_absent_returns now refill key cache_type self :
  memory_cache self !! key = None ->
  exists v self' calls,
    CacheManager.get now refill key cache_type self = (Ok v, self', calls) /\
    ((hits (cache_stats self') = hits (cache_stats self) + 1 /\
      redis_hits (cache_stats self') = redis_hits (cache_stats self) + 1 /\
      misses (cache_stats self') = misses (cache_stats self)) \/
     (hits (cache_stats self') = hits (cache_stats self) /\
      redis_hits (cache_stats self') = redis_hits (cache_stats self) /\
      misses (cache_stats self') = misses (cache_stats self) + 1 /\ v = PyNone)) /\
    memory_hits (cache_stats self') = memory_hits (cache_stats self).
Proof.
  intros Hnone. destruct (redis_client self) as [r|] eqn:Hrc.
  - destruct (redis_get key r) as [[[payload|]|e] r'] eqn:Hget.
    + destruct (str_truthy payload) eqn:Ht; [destruct (json_loads payload) as [v|] eqn:Hl|].
      * rewrite (get_redis_hit _ _ _ _ _ _ _ _ _ Hnone Hrc Hget Ht Hl).
        do 3 eexists. split; [reflexivity|]. cbn. split; [left|]; auto.
      * rewrite (get_redis_miss _ _ _ _ _ _ Hnone Hrc).
        -- do 3 eexists. split; [reflexivity|]. cbn. split; [right|]; auto.
        -- rewrite Hget. intros p [= <-]. now right.
      * rewrite (get_redis_miss _ _ _ _ _ _ Hnone Hrc).
        -- do 3 eexists. split; [reflexivity|]. cbn. split; [right|]; auto.
        -- rewrite Hget. intros p [= <-]. now left.
    + rewrite (get_redis_miss _ _ _ _ _ _ Hnone Hrc).
      * do 3 eexists. split; [reflexivity|]. cbn. split; [right|]; auto.
      * rewrite Hget. discriminate.
    + rewrite (get_redis_miss _ _ _ _ _ _ Hnone Hrc).
      * do 3 eexists. split; [reflexivity|]. cbn. split; [right|]; auto.
      * rewrite Hget. discriminate.
  - rewrite (get_absent_local _ _ _ _ _ Hnone Hrc).
    do 3 eexists. split; [reflexivity|]. cbn. split; [right|]; auto.
Qed.


(** [set] always returns; it writes memory with the capped TTL and asks
    the client, if there is one and the value has a JSON form, to keep
    the payload for the full TTL. *)
Lemma set_returns now key (v : value O) cache_type ttl self :
  exists rc,
    CacheManager.set now key v cache_type ttl self =
      (Ok tt,
       Manager rc
         (<[key := CachedItem v (now + Z.min (default (ttl_config_get cache_type) ttl) 300)]>
            (memory_cache self))
         (cache_stats self),
       match redis_client self, json_dumps v with
       | Some _, Some payload =>
           [CallSetex key (default (ttl_config_get cache_type) ttl) payload]
       | _, _ => []
       end) /\
    (redis_client self = None -> rc = None).
Proof.
  unfold CacheManager.set. unfold_monad. cbn.
  destruct (redis_client self) as [r|] eqn:Hrc; cbn.
  - destruct (json_dumps v) as [payload|]; cbn.
    + destruct (redis_setex _ _ _ _) as [[[]|e] r'] eqn:Hs; cbn;
        destruct ttl; cbn; eexists; (split; [reflexivity | discriminate]).
    + destruct ttl; cbn; eexists; (split; [reflexivity | discriminate]).
  - destruct ttl; cbn; eexists; (split; [reflexivity | auto]).
Qed.

End MethodFacts.

Section MoreMethodFacts.
Context {O R : Type} {PY : Runtime O} {RC : RedisClient R}.
Implicit Types (self : CacheManager O R) (key cache_type : string) (now refill : Z).

(** An entry that is absent or expired plays no part in [get]. *)
Lemma get_stale now refill key cache_type self :
  (forall item, memory_cache self !! key = Some item -> item_expiry item <= now) ->
  CacheManager.get now refill key cache_type self =
    CacheManager.get now refill key cache_type
      (Manager (redis_client self) (base.delete key (memory_cache self)) (cache_stats self)).
Proof.
  intros Hstale. destruct (memory_cache self !! key) as [item|] eqn:Hitem.
  - apply (get_expired _ _ _ _ _ item Hitem). now apply Hstale.
  - rewrite (delete_id _ _ Hitem). now destruct self.
Qed.

(** [delete] always returns and forgets the key in memory. *)
Lemma delete_returns key self :
  exists rc,
    CacheManager.delete key self =
      (Ok tt, Manager rc (base.delete key (memory_cache self)) (cache_stats self),
       match redis_client self with Some _ => [CallDelete key] | None => [] end) /\
    (redis_client self = None -> rc = None).
Proof.
  unfold CacheManager.delete. unfold_monad. cbn.
  destruct (memory_cache self !! key) eqn:Hitem.
  - cbn. destruct (redis_client self) as [r|]; cbn.
    + destruct (redis_delete key r) as [[[]|e] r']; cbn; eexists; (split; [reflexivity|discriminate]).
    + eexists; split; [reflexivity|auto].
  - rewrite (delete_id _ _ Hitem).
    destruct self as [[r|] mc st]; cbn.
    + destruct (redis_delete key r) as [[[]|e] r']; cbn; eexists; (split; [reflexivity|discriminate]).
    + eexists; split; [reflexivity|auto].
Qed.

End MoreMethodFacts.

(** ** [get], [set], [delete] and [cleanup_expired] *)

Section Claims.
Context {O R : Type} {PY : Runtime O} {RC : RedisClient R}.
Implicit Types (self : CacheManager O R) (key cache_type : string) (now refill : Z).

(** C1. [set(key, value, category)] followed by [get(key, category)] on
    the same manager, with nothing in between, returns [value]: for
    every reading of the clock that is before the expiry [set] gave the
    entry, and in particular for a [get] at the reading [set] saw (the
    TTL of every category is at least 60 seconds). *)
Theorem set_then_get now key (v : value O) cache_type self :
  exists self1 calls1,
    CacheManager.set now key v cache_type None self = (Ok tt, self1, calls1) /\
    (forall now' refill,
       now' < now + Z.min (ttl_config_get cache_type) 300 ->
       exists self2, CacheManager.get now' refill key cache_type self1 = (Ok v, self2, [])) /\
    (forall refill,
       exists self2, CacheManager.get now refill key cache_type self1 = (Ok v, self2, [])).
Proof.
  destruct (set_returns now key v cache_type None self) as (rc & Hset & _).
  do 2 eexists. split; [exact Hset|].
  assert (Hlive : forall now' refill, now' < now + Z.min (ttl_config_get cache_type) 300 ->
            exists self2, CacheManager.get now' refill key cache_type
              (Manager rc (<[key := CachedItem v (now + Z.min (ttl_config_get cache_type) 300)]>
                             (memory_cache self)) (cache_stats self)) = (Ok v, self2, [])).
  { intros now' refill Hnow'. eexists.
    apply (get_memory_hit now' refill key cache_type _
             (CachedItem v (now + Z.min (ttl_config_get cache_type) 300))); cbn.
    - apply lookup_insert_eq.
    - exact Hnow'. }
  split; [exact Hlive|].
  intros refill. apply Hlive. pose proof (ttl_config_get_bounds cache_type). lia.
Qed.

(** C2. The postcondition of [get(key, category)], tier by tier:
    - an unexpired entry in memory is returned, [hits] and
      [memory_hits] go up by one, and no call reaches the client;
    - an expired entry is deleted first, and the call goes on as on a
      manager that never had it;
    - with no unexpired entry in memory, a payload the client returns
      and [json.loads] accepts is returned, memory gets it with expiry
      [min(category TTL, 300)] after the clock reading at that point,
      and [hits] and [redis_hits] go up by one;
    - with no unexpired entry in memory and nothing usable from the
      client (there is none, it raises, it has no payload, the payload
      is empty or is not JSON), [misses] goes up by one and [None] is
      returned. *)
Theorem get_tier_fallback now refill key cache_type self :
  let st := cache_stats self in
  let stale := forall item, memory_cache self !! key = Some item -> item_expiry item <= now in
  (forall item,
     memory_cache self !! key = Some item -> now < item_expiry item ->
     CacheManager.get now refill key cache_type self =
       (Ok (item_value item),
        Manager (redis_client self) (memory_cache self)
                (Stats (hits st + 1) (misses st) (memory_hits st + 1) (redis_hits st)),
        [])) /\
  (stale ->
     CacheManager.get now refill key cache_type self =
       CacheManager.get now refill key cache_type
         (Manager (redis_client self) (base.delete key (memory_cache self)) st)) /\
  (forall r r' payload v,
     stale ->
     redis_client self = Some r ->
     redis_get key r = (Ok (Some payload), r') ->
     str_truthy payload = true ->
     json_loads payload = Some v ->
     CacheManager.get now refill key cache_type self =
       (Ok v,
        Manager (Some r')
                (<[key := CachedItem v (refill + Z.min (ttl_config_get cache_type) 300)]>
                   (memory_cache self))
                (Stats (hits st + 1) (misses st) (memory_hits st) (redis_hits st + 1)),
        [CallGet key])) /\
  (stale ->
     match redis_client self with
     | None => True
     | Some r =>
         forall payload, fst (redis_get key r) = Ok (Some payload) ->
           str_truthy payload = false \/ json_loads payload = None
     end ->
     CacheManager.get now refill key cache_type self =
       (Ok PyNone,
        Manager (match redis_client self with
                 | Some r => Some (snd (redis_get key r))
                 | None => None
                 end)
                (base.delete key (memory_cache self))
                (Stats (hits st) (misses st + 1) (memory_hits st) (redis_hits st)),
        match redis_client self with Some _ => [CallGet key] | None => [] end)).
Proof.
  cbv zeta. split; [|split; [|split]].
  - intros item Hitem Hlive. now apply get_memory_hit.
  - apply get_stale.
  - intros r r' payload v Hstale Hrc Hget Htruthy Hloads.
    rewrite (get_stale _ _ _ _ _ Hstale).
    rewrite (get_redis_hit now refill key cache_type _ r r' payload v);
      [|apply lookup_delete_eq|exact Hrc|exact Hget|exact Htruthy|exact Hloads].
    cbn. now rewrite insert_delete_eq.
  - intros Hstale Hnothing. rewrite (get_stale _ _ _ _ _ Hstale).
    destruct (redis_client self) as [r|] eqn:Hrc.
    + rewrite (get_redis_miss now refill key cache_type _ r);
        [reflexivity|apply lookup_delete_eq|reflexivity|exact Hnothing].
    + rewrite (get_absent_local now refill key cache_type _);
        [reflexivity|apply lookup_delete_eq|reflexivity].
Qed.



End Claims.

(** ** Deleting a list of keys from memory *)

Section WithoutKeys.
Context {A : Type}.
Implicit Types (d : gmap string A) (keys : list string).

Lemma lookup_without_keys keys d k :
  without_keys keys d !! k = if decide (k ∈ keys) then None else d !! k.
Proof.
  unfold without_keys. revert d.
  induction keys as [|k' keys IH]; intros d; cbn [fold_left].
  - destruct (decide (k ∈ [])) as [Hin|_]; [|reflexivity]. now apply elem_of_nil in Hin.
  - rewrite IH. destruct (decide (k ∈ keys)) as [Hin|Hnotin].
    + rewrite decide_True; [reflexivity | now right].
    + destruct (decide (k = k')) as [->|Hne].
      * rewrite decide_True; [apply lookup_delete_eq | now left].
      * rewrite decide_False; [now apply lookup_delete_ne|].
        intros [->|Hin]%elem_of_cons; contradiction.
Qed.

Lemma size_without_keys keys d :
  NoDup keys ->
  (forall k, k ∈ keys -> is_Some (d !! k)) ->
  (size (without_keys keys d) + List.length keys = size d)%nat.
Proof.
  unfold without_keys. revert d.
  induction keys as [|k keys IH]; intros d Hnd Hin; cbn [fold_left List.length].
  - lia.
  - apply NoDup_cons in Hnd as [Hk Hnd].
    rewrite Nat.add_succ_r, IH; [|exact Hnd|].
    + destruct (Hin k) as [x Hx]; [now left|].
      rewrite (map_size_delete_Some k d) by eauto.
      assert (size d <> 0)%nat by (apply map_size_ne_0_lookup; eauto). lia.
    + intros k' Hk'. rewrite lookup_delete_ne; [apply Hin; now right|].
      intros ->. contradiction.
Qed.

(** The keys of the entries a test picks, as a comprehension over
    [d.items()] lists them. *)
Lemma elem_of_picked (f : string * A -> bool) d k :
  k ∈ map fst (List.filter f (map_to_list d)) <->
  exists x, d !! k = Some x /\ f (k, x) = true.
Proof.
  rewrite list_elem_of_In, in_map_iff. split.
  - intros ([k' x] & <- & [Hin Hf]%filter_In).
    exists x. split; [|exact Hf]. now apply elem_of_map_to_list, list_elem_of_In.
  - intros (x & Hx & Hf). exists (k, x). split; [reflexivity|].
    apply filter_In. split; [|exact Hf]. now apply list_elem_of_In, elem_of_map_to_list.
Qed.

Lemma NoDup_picked (f : string * A -> bool) d :
  NoDup (map fst (List.filter f (map_to_list d))).
Proof.
  pose proof (NoDup_fst_map_to_list d) as Hnd. unfold fmap, list_fmap in Hnd.
  induction (map_to_list d) as [|[k x] l IH]; cbn in *; [constructor|].
  apply NoDup_cons in Hnd as [Hk Hnd].
  destruct (f (k, x)); cbn; [|now apply IH].
  apply NoDup_cons. split; [|now apply IH].
  intros Hin. apply Hk.
  apply list_elem_of_In, in_map_iff in Hin as ([k' x'] & Heq & [Hin _]%filter_In).
  cbn in Heq. subst k'. apply list_elem_of_In, in_map_iff. now exists (k, x').
Qed.

End WithoutKeys.

Section Sweeps.
Context {O R : Type} {PY : Runtime O} {RC : RedisClient R}.
Implicit Types (self : CacheManager O R) (key cache_type : string) (now : Z).

Lemma for_each_delitem keys self :
  for_each keys CacheManager.memory_cache_delitem self =
    (Ok tt, Manager (redis_client self) (without_keys keys (memory_cache self)) (cache_stats self), []).
Proof.
  revert self. induction keys as [|k keys IH]; intros self; cbn [for_each].
  - now destruct self.
  - unfold bind at 1. unfold CacheManager.memory_cache_delitem at 1, modify at 1.
    rewrite IH. reflexivity.
Qed.

Lemma cleanup_expired_returns now self :
  let expired_keys :=
    map fst (List.filter (fun kv : string * cached_item O => item_expiry (snd kv) <=? now)
                         (map_to_list (memory_cache self))) in
  CacheManager.cleanup_expired now self =
    (Ok (Z.of_nat (List.length expired_keys)),
     Manager (redis_client self) (without_keys expired_keys (memory_cache self)) (cache_stats self),
     []).
Proof.
  cbv zeta. unfold CacheManager.cleanup_expired.
  unfold bind at 1, get_state at 1. unfold bind at 1. rewrite for_each_delitem. reflexivity.
Qed.

(** C5. [cleanup_expired()] at clock reading [now] returns normally
    without calling the client; afterwards memory holds exactly the
    entries whose expiry is after [now], each unchanged; the number
    returned is the number of entries removed; and the entries it
    removes are those a [get] at the same reading refuses to serve from
    memory, the ones it keeps are those such a [get] serves. *)
Theorem cleanup_expired_exact now self :
  let '(res, self', calls) := CacheManager.cleanup_expired now self in
  res = Ok (Z.of_nat (size (memory_cache self)) - Z.of_nat (size (memory_cache self'))) /\
  calls = [] /\
  redis_client self' = redis_client self /\
  cache_stats self' = cache_stats self /\
  (forall key,
     memory_cache self' !! key =
       match memory_cache self !! key with
       | Some item => if item_expiry item <=? now then None else Some item
       | None => None
       end) /\
  (forall refill key cache_type item,
     memory_cache self !! key = Some item ->
     (memory_cache self' !! key = Some item <->
      CacheManager.get now refill key cache_type self =
        (Ok (item_value item),
         Manager (redis_client self) (memory_cache self)
                 (Stats (hits (cache_stats self) + 1) (misses (cache_stats self))
                        (memory_hits (cache_stats self) + 1) (redis_hits (cache_stats self))),
         []))).
Proof.
  pose proof (cleanup_expired_returns now self) as Hrun. cbv zeta in Hrun.
  set (expired_keys := map fst (List.filter _ _)) in Hrun. rewrite Hrun. clear Hrun.
  cbn [memory_cache redis_client cache_stats].
  assert (Hlookup : forall key,
    without_keys expired_keys (memory_cache self) !! key =
      match memory_cache self !! key with
      | Some item => if item_expiry item <=? now then None else Some item
      | None => None
      end).
  { intros key. rewrite lookup_without_keys.
    destruct (decide (key ∈ expired_keys)) as [Hin|Hnotin].
    - apply elem_of_picked in Hin as (item & -> & Hexp). cbn in Hexp. now rewrite Hexp.
    - destruct (memory_cache self !! key) as [item|] eqn:Hitem; [|reflexivity].
      destruct (item_expiry item <=? now) eqn:Hexp; [|reflexivity].
      exfalso. apply Hnotin. apply elem_of_picked. now exists item. }
  assert (Hcount : Z.of_nat (List.length expired_keys) =
            Z.of_nat (size (memory_cache self))
            - Z.of_nat (size (without_keys expired_keys (memory_cache self)))).
  { pose proof (size_without_keys expired_keys (memory_cache self)) as Hsize.
    rewrite <- Hsize; [lia|apply NoDup_picked|].
    intros k (item & Hitem & _)%elem_of_picked. eauto. }
  split; [now rewrite Hcount|]. do 3 (split; [reflexivity|]). split; [exact Hlookup|].
  intros refill key cache_type item Hitem. rewrite Hlookup, Hitem.
  destruct (Z.leb_spec (item_expiry item) now) as [Hdead|Hlive].
  - split; [discriminate|]. intros Hget.
    rewrite (get_expired now refill key cache_type self item Hitem Hdead) in Hget.
    destruct (get_absent_returns now refill key cache_type
                (Manager (redis_client self) (base.delete key (memory_cache self)) (cache_stats self)))
      as (v & s' & calls & Hrun' & _ & Hmem); [apply lookup_delete_eq|].
    rewrite Hrun' in Hget. injection Hget as _ Hs' _. subst s'. cbn in Hmem. lia.
  - split; [intros _|reflexivity]. now apply get_memory_hit.
Qed.

End Sweeps.

Section Clear.
Context {O R : Type} {PY : Runtime O} {RC : RedisClient R}.
Implicit Types (self : CacheManager O R) (key cache_type : string) (now : Z).

(** A loop of [delete] calls on the client stops at the first one that
    raises; memory and counters are not involved. *)
Lemma for_each_client_delete keys self r :
  redis_client self = Some r ->
  exists res r' deleted rest,
    for_each keys CacheManager.client_delete self =
      (res, Manager (Some r') (memory_cache self) (cache_stats self), map CallDelete deleted) /\
    keys = (deleted ++ rest)%list /\
    (res = Ok tt -> rest = []).
Proof.
  revert self r. induction keys as [|k keys IH]; intros self r Hrc; cbn [for_each].
  - exists (Ok tt), r, [], []. unfold ret. destruct self; cbn in *; subst. auto.
  - unfold bind at 1. unfold CacheManager.client_delete at 1, CacheManager.on_client at 1.
    rewrite Hrc. destruct (redis_delete k r) as [[[]|e] r1] eqn:Hdel.
    + destruct (IH (Manager (Some r1) (memory_cache self) (cache_stats self)) r1 eq_refl)
        as (res & r' & deleted & rest & -> & -> & Hrest).
      exists res, r', (k :: deleted), rest. cbn. auto.
    + exists (Raise e), r1, [k], keys. cbn. split; [reflexivity|]. split; [reflexivity|discriminate].
Qed.

(** [clear(pattern)] with a pattern that is not empty. *)
Lemma clear_pattern_returns pattern self :
  str_truthy pattern = true ->
  exists rc calls,
    CacheManager.clear (Some pattern) self =
      (Ok tt,
       Manager rc
         (without_keys (List.filter (contains pattern) (map fst (map_to_list (memory_cache self))))
                       (memory_cache self))
         (cache_stats self),
       calls) /\
    match redis_client self with
    | None => rc = None /\ calls = []
    | Some r =>
        exists deleted rest,
          calls = CallScanIter ("*" ++ pattern ++ "*") :: map CallDelete deleted /\
          fst (fst (redis_scan_iter ("*" ++ pattern ++ "*") r)) = (deleted ++ rest)%list
    end.
Proof.
  intros Htruthy.
  unfold CacheManager.clear, bind, get_state, try_except,
    CacheManager.client_scan_iter, CacheManager.on_client.
  cbn [opt_truthy default id]. rewrite Htruthy, for_each_delitem.
  destruct (redis_client self) as [r|] eqn:Hrc; cbn [redis_client memory_cache cache_stats].
  - destruct (redis_scan_iter ("*" ++ pattern ++ "*") r) as [[keys tail] r1] eqn:Hscan.
    cbn [fst snd].
    destruct (for_each_client_delete keys
                (Manager (Some r1)
                   (without_keys (List.filter (fun k => contains pattern k)
                                    (map fst (map_to_list (memory_cache self))))
                                 (memory_cache self))
                   (cache_stats self)) r1 eq_refl)
      as (res & r' & deleted & rest & Hloop & Hkeys & _).
    rewrite Hloop. cbn [memory_cache cache_stats].
    destruct res as [[]|e]; [destruct tail as [[]|e]|]; unfold ret, raise; cbn;
      do 2 eexists; (split; [rewrite ?app_nil_r; reflexivity|]); exists deleted, rest;
      (split; [reflexivity|exact Hkeys]).
  - unfold ret. cbn. do 2 eexists. split; [reflexivity|]. now split.
Qed.

(** [clear()] and [clear("")]. *)
Lemma clear_all_returns pattern self :
  opt_truthy pattern = false ->
  exists rc,
    CacheManager.clear pattern self =
      (Ok tt, Manager rc ∅ (cache_stats self),
       match redis_client self with Some _ => [CallFlushdb] | None => [] end) /\
    (redis_client self = None -> rc = None).
Proof.
  intros Hfalsy. unfold CacheManager.clear.
  unfold bind at 1, get_state at 1. rewrite Hfalsy.
  unfold bind, modify. cbn.
  destruct (redis_client self) as [r|] eqn:Hrc.
  - unfold try_except, CacheManager.client_flushdb, CacheManager.on_client. cbn.
    destruct (redis_flushdb r) as [[[]|e] r']; cbn; eexists; (split; [reflexivity|discriminate]).
  - cbn. eexists. split; [reflexivity|auto].
Qed.

Lemma lookup_without_matching_keys (pattern : string) (mc : gmap string (cached_item O)) key :
  without_keys (List.filter (contains pattern) (map fst (map_to_list mc))) mc !! key
    = if contains pattern key then None else mc !! key.
Proof.
  rewrite lookup_without_keys.
  destruct (decide (key ∈ List.filter (contains pattern) (map fst (map_to_list mc)))) as [Hin|Hnotin].
  - apply list_elem_of_In, filter_In in Hin as [_ ->]. reflexivity.
  - destruct (contains pattern key) eqn:Hc; [|reflexivity].
    destruct (mc !! key) as [item|] eqn:Hitem; [|reflexivity].
    exfalso. apply Hnotin, list_elem_of_In, filter_In. split; [|exact Hc].
    apply in_map_iff. exists (key, item). split; [reflexivity|].
    now apply list_elem_of_In, elem_of_map_to_list.
Qed.


End Clear.

(** ** Redis patterns and substrings *)

Lemma glob_star_unfold (q s : string) :
  glob_match (String "*" q) s =
    glob_match q s || match s with
                      | EmptyString => false
                      | String _ s' => glob_match (String "*" q) s'
                      end.
Proof. destruct s; reflexivity. Qed.

Lemma glob_star_any (s : string) : glob_match "*" s = true.
Proof.
  induction s as [|c s IH]; [reflexivity|].
  rewrite glob_star_unfold. rewrite IH. apply orb_true_r.
Qed.

Lemma glob_plain_prefix (p s : string) :
  plain p = true -> glob_match (p ++ "*") s = String.prefix p s.
Proof.
  revert s. induction p as [|c p IH]; intros s Hplain.
  - rewrite append_empty_l, glob_star_any. now destruct s.
  - unfold plain, all_chars in Hplain. cbn in Hplain.
    apply andb_prop in Hplain as [Hc Hp].
    unfold is_glob_special in Hc.
    apply negb_true_iff in Hc.
    apply orb_false_elim in Hc as [Hc Hbs]. apply orb_false_elim in Hc as [Hc Hbr].
    apply orb_false_elim in Hc as [Hstar Hq].
    rewrite append_String. cbn [glob_match]. rewrite Hstar, Hq, Hbs.
    destruct s as [|d s]; [reflexivity|]. cbn [String.prefix].
    destruct (ascii_dec c d) as [->|Hne].
    + rewrite Ascii.eqb_refl. cbn. now apply IH.
    + apply Ascii.eqb_neq in Hne. now rewrite Hne.
Qed.

(** For a plain pattern, [*pattern*] matches the keys that contain it. *)
Lemma glob_plain_contains (p s : string) :
  plain p = true -> glob_match ("*" ++ p ++ "*") s = contains p s.
Proof.
  intros Hplain. rewrite append_String, append_empty_l.
  induction s as [|c s IH]; rewrite glob_star_unfold; cbn [contains];
    rewrite (glob_plain_prefix _ _ Hplain); [reflexivity|].
  now rewrite IH.
Qed.

(** C6, at a pattern with a character that is special for Redis.
    Two keys are set, ["a?b"] and ["ab"], on a manager with a server in
    memory, and then [clear("?")] is called. Memory loses ["a?b"] only,
    as ["ab"] does not contain ["?"]; the server is asked for [*?*],
    where [?] stands for any character, and loses both keys. *)
Theorem clear_pattern_glob_on_redis :
  let v : value scalar := PyObj (SInt 1) in
  let item := CachedItem v 60 in
  let '(_, self, _) :=
    run [OpSet 0 "a?b" v "quick" None; OpSet 0 "ab" v "quick" None]
        (CacheManager.__init__ (Some (∅ : fake_redis))) in
  let '(res, self', calls) := CacheManager.clear (Some "?") self in
  contains "?" "ab" = false /\
  map_to_list (memory_cache self) = [("a?b", item); ("ab", item)] /\
  option_map map_to_list (redis_client self) = Some [("a?b", (60, "1")); ("ab", (60, "1"))] /\
  res = Ok tt /\
  map_to_list (memory_cache self') = [("ab", item)] /\
  option_map map_to_list (redis_client self') = Some [] /\
  calls = [CallScanIter "*?*"; CallDelete "a?b"; CallDelete "ab"].
Proof.
  vm_compute. repeat split; reflexivity.
Qed.

(** ** Key derivation *)

Section KeyFacts.
Context {O : Type} {PY : Runtime O}.

Lemma generate_cache_key_shape prefix (args : list (value O)) kwargs :
  CacheManager._generate_cache_key prefix args kwargs =
    (slice_to 16 (MD5.hexdigest (encode (CacheManager.key_str prefix args kwargs)))
     ++ "_" ++ slice_to 50 (CacheManager.key_str prefix args kwargs))%string.
Proof. reflexivity. Qed.

Lemma digest_prefix_length (data : list Z) :
  String.length (slice_to 16 (MD5.hexdigest data)) = 16%nat.
Proof. rewrite slice_to_length, hexdigest_length. reflexivity. Qed.

(** Two keys are equal exactly when their digests and their readable
    parts are. *)
Lemma generate_cache_key_eq prefix (args : list (value O)) kwargs prefix' args' kwargs' :
  CacheManager._generate_cache_key prefix args kwargs
    = CacheManager._generate_cache_key prefix' args' kwargs' <->
  slice_to 16 (MD5.hexdigest (encode (CacheManager.key_str prefix args kwargs)))
    = slice_to 16 (MD5.hexdigest (encode (CacheManager.key_str prefix' args' kwargs'))) /\
  slice_to 50 (CacheManager.key_str prefix args kwargs)
    = slice_to 50 (CacheManager.key_str prefix' args' kwargs').
Proof.
  rewrite !generate_cache_key_shape. split.
  - intros Heq. apply append_inj_length in Heq as [Hd Hs].
    + split; [exact Hd|]. now apply (append_inj_l "_").
    + now rewrite !digest_prefix_length.
  - now intros [-> ->].
Qed.

(** Below 50 characters the readable part is the whole joined string,
    and the key determines it. *)
Lemma generate_cache_key_short prefix (args : list (value O)) kwargs prefix' args' kwargs' :
  (String.length (CacheManager.key_str prefix args kwargs) <= 50)%nat ->
  (String.length (CacheManager.key_str prefix' args' kwargs') <= 50)%nat ->
  CacheManager._generate_cache_key prefix args kwargs
    = CacheManager._generate_cache_key prefix' args' kwargs' <->
  CacheManager.key_str prefix args kwargs = CacheManager.key_str prefix' args' kwargs'.
Proof.
  intros Hlen Hlen'. rewrite generate_cache_key_eq.
  rewrite (slice_to_all 50 _ Hlen), (slice_to_all 50 _ Hlen'). split.
  - now intros [_ Heq].
  - intros Heq. now rewrite Heq.
Qed.

End KeyFacts.



(** ** Counters along a sequence of calls *)

Section Counters.
Context {O R : Type} {PY : Runtime O} {RC : RedisClient R}.
Implicit Types (self : CacheManager O R) (key cache_type : string) (now : Z).

Lemma get_stats_returns self :
  CacheManager.get_stats self =
    (Ok (Report (hits (cache_stats self)) (misses (cache_stats self))
                (memory_hits (cache_stats self)) (redis_hits (cache_stats self))
                (format_2f (CacheManager.hit_rate_percent (cache_stats self)) ++ "%")
                (Z.of_nat (size (memory_cache self)))),
     self, []).
Proof. reflexivity. Qed.





End Counters.

(** The rendering of the runtime for scalars is within half a hundredth
    of the rate. *)
Lemma round_hundredths_close (q : Q) :
  (Qabs (inject_Z (round_hundredths q) / 100 - q) <= (1 # 200))%Q.
Proof.
  destruct q as [n d]. unfold round_hundredths. cbn [Qnum Qden].
  pose proof (Z.div_mod (n * 100) (Z.pos d) ltac:(lia)) as Hdiv.
  pose proof (Z.mod_pos_bound (n * 100) (Z.pos d) ltac:(lia)) as Hrem.
  set (fl := (n * 100) / Z.pos d) in *. set (rem := (n * 100) mod Z.pos d) in *.
  assert (Hgoal : forall r, Z.abs (r * Z.pos d - n * 100) * 2 <= Z.pos d ->
            (Qabs (inject_Z r / 100 - (n # d)) <= (1 # 200))%Q).
  { intros r Hr. apply Qabs_Qle_condition. 
    unfold Qle, Qminus, Qplus, Qopp, Qdiv, Qmult, Qinv, inject_Z; cbn. lia. }
  apply Hgoal.
  destruct (Z.ltb_spec (2 * rem) (Z.pos d)); [lia|].
  destruct (Z.ltb_spec (Z.pos d) (2 * rem)); [lia|].
  destruct (Z.even fl); lia.
Qed.

(** ** The decorator *)

Section DecoratorFacts.
Context {O R F : Type} {PY : Runtime O} {RC : RedisClient R}.
Implicit Types (self : Owner O R F) (mgr : CacheManager O R) (func : callable O F).





End DecoratorFacts.

Section DecoratorClaims.
Context {O R F : Type} {PY : Runtime O} {RC : RedisClient R}.
Implicit Types (self : Owner O R F) (mgr : CacheManager O R) (func : callable O F).






End DecoratorClaims.

(** ** The statements at concrete inputs *)

(** The example of the specification: [set("s1", 10, "quick")] at
    second 1000, then [get] at once and 61 seconds later. *)
Example quick_entry_lifetime :
  let '(_, self1, _) :=
    CacheManager.set 1000 "s1" (PyObj (SInt 10)) "quick" None
      (CacheManager.__init__ (None : option fake_redis)) in
  let '(now_value, self2, _) := CacheManager.get 1000 1000 "s1" "quick" self1 in
  let '(later_value, self3, _) := CacheManager.get 1061 1061 "s1" "quick" self2 in
  now_value = Ok (PyObj (SInt 10)) /\
  later_value = Ok PyNone /\
  size (memory_cache self2) = 1%nat /\
  size (memory_cache self3) = 0%nat /\
  cache_stats self3 = Stats 1 1 1 0.
Proof. vm_compute. repeat split; reflexivity. Qed.

Lemma set_then_get_witness :
  exists self1 calls1,
    CacheManager.set 1000 "s1" (PyObj (SInt 10)) "quick" None
      (CacheManager.__init__ (Some (∅ : fake_redis))) = (Ok tt, self1, calls1) /\
    exists self2, CacheManager.get 1059 1059 "s1" "quick" self1 = (Ok (PyObj (SInt 10)), self2, []).
Proof.
  destruct (set_then_get 1000 "s1" (PyObj (SInt 10)) "quick"
              (CacheManager.__init__ (Some (∅ : fake_redis))))
    as (self1 & calls1 & Hset & Hlive & _).
  exists self1, calls1. split; [exact Hset|].
  apply Hlive. vm_compute. reflexivity.
Defined.

Lemma get_tier_fallback_witness :
  let entry : cached_item scalar := CachedItem (PyObj (SStr "warm")) 50 in
  let remote : fake_redis := {["k" := (600, "7")]} in
  (* an unexpired entry *)
  CacheManager.get 40 40 "k" "news" (Manager (Some remote) {["k" := entry]} (Stats 0 0 0 0))
    = (Ok (PyObj (SStr "warm")), Manager (Some remote) {["k" := entry]} (Stats 1 0 1 0), []) /\
  (* an expired entry, and a payload on the server *)
  CacheManager.get 50 51 "k" "news" (Manager (Some remote) {["k" := entry]} (Stats 0 0 0 0))
    = (Ok (PyObj (SInt 7)),
       Manager (Some remote) (<["k" := CachedItem (PyObj (SInt 7)) 351]> {["k" := entry]})
               (Stats 1 0 0 1),
       [CallGet "k"]) /\
  (* an expired entry, and no server *)
  CacheManager.get 50 51 "k" "news" (Manager (None : option fake_redis) {["k" := entry]} (Stats 0 0 0 0))
    = (Ok PyNone, Manager None (base.delete "k" {["k" := entry]}) (Stats 0 1 0 0), []).
Proof.
  cbv zeta. split; [|split].
  - pose proof (get_tier_fallback 40 40 "k" "news"
                  (Manager (Some ({["k" := (600, "7")]} : fake_redis))
                           {["k" := CachedItem (PyObj (SStr "warm")) 50]} (Stats 0 0 0 0)))
      as Hget.
    cbv zeta in Hget. destruct Hget as (Hhit & _).
    apply (Hhit (CachedItem (PyObj (SStr "warm")) 50)); vm_compute; reflexivity.
  - pose proof (get_tier_fallback 50 51 "k" "news"
                  (Manager (Some ({["k" := (600, "7")]} : fake_redis))
                           {["k" := CachedItem (PyObj (SStr "warm")) 50]} (Stats 0 0 0 0)))
      as Hget.
    cbv zeta in Hget. destruct Hget as (_ & _ & Hremote & _).
    apply (Hremote {["k" := (600, "7")]} {["k" := (600, "7")]} "7" (PyObj (SInt 7))).
    + intros item Hitem. vm_compute in Hitem. injection Hitem as <-. vm_compute. discriminate.
    + reflexivity.
    + vm_compute. reflexivity.
    + reflexivity.
    + vm_compute. reflexivity.
  - pose proof (get_tier_fallback 50 51 "k" "news"
                  (Manager (None : option fake_redis)
                           {["k" := CachedItem (PyObj (SStr "warm")) 50]} (Stats 0 0 0 0)))
      as Hget.
    cbv zeta in Hget. destruct Hget as (_ & _ & _ & Hmiss).
    apply Hmiss.
    + intros item Hitem. vm_compute in Hitem. injection Hitem as <-. vm_compute. discriminate.
    + exact I.
Defined.



Lemma cleanup_expired_exact_witness :
  let old : cached_item scalar := CachedItem (PyObj (SInt 1)) 50 in
  let fresh : cached_item scalar := CachedItem (PyObj (SInt 2)) 51 in
  let self : CacheManager scalar fake_redis :=
    Manager None (<["a" := old]> {["b" := fresh]}) (Stats 0 0 0 0) in
  let '(res, self', _) := CacheManager.cleanup_expired 50 self in
  res = Ok 1 /\
  memory_cache self' !! "a" = None /\
  memory_cache self' !! "b" = Some fresh /\
  CacheManager.get 50 50 "b" "quick" self
    = (Ok (PyObj (SInt 2)), Manager None (memory_cache self) (Stats 1 0 1 0), []).
Proof.
  cbv zeta.
  pose proof (cleanup_expired_exact 50
                (Manager (None : option fake_redis)
                   (<["a" := CachedItem (PyObj (SInt 1)) 50]> {["b" := CachedItem (PyObj (SInt 2)) 51]})
                   (Stats 0 0 0 0))) as Hsweep.
  assert (Hrun : CacheManager.cleanup_expired 50
                   (Manager (None : option fake_redis)
                      (<["a" := CachedItem (PyObj (SInt 1)) 50]>
                         {["b" := CachedItem (PyObj (SInt 2)) 51]})
                      (Stats 0 0 0 0))
                 = (Ok 1, Manager None {["b" := CachedItem (PyObj (SInt 2)) 51]} (Stats 0 0 0 0), []))
    by (vm_compute; reflexivity).
  rewrite Hrun in *.
  destruct Hsweep as (_ & _ & _ & _ & Hlookup & Hboundary).
  assert (Hb : ({["b" := CachedItem (PyObj (SInt 2)) 51]} : gmap string (cached_item scalar)) !! "b"
               = Some (CachedItem (PyObj (SInt 2)) 51)) by apply lookup_singleton_eq.
  split; [reflexivity|]. split; [|split].
  - rewrite Hlookup. vm_compute. reflexivity.
  - exact Hb.
  - apply (Hboundary 50 "b" "quick" (CachedItem (PyObj (SInt 2)) 51)); [vm_compute; reflexivity|exact Hb].
Defined.





(** ** [clear]: what holds of it *)



Section ClearOnFakeRedis.
Context {O : Type} {PY : Runtime O}.

Lemma for_each_fake_delete keys (r : fake_redis) (mc : gmap string (cached_item O)) st :
  for_each keys CacheManager.client_delete (Manager (Some r) mc st) =
    (Ok tt, Manager (Some (without_keys keys r)) mc st, map CallDelete keys).
Proof.
  revert r. induction keys as [|k keys IH]; intros r; cbn [for_each]; [reflexivity|].
  unfold bind at 1. unfold CacheManager.client_delete at 1, CacheManager.on_client at 1.
  cbn [redis_client redis_delete fake_redis_client memory_cache cache_stats].
  rewrite IH. reflexivity.
Qed.

(** X2. On a pattern without [*], [?], [[] or a backslash the two
    tiers agree: with the server in memory as the client, [clear(pattern)]
    removes from memory and from the server exactly the keys that
    contain the pattern. *)
Theorem clear_plain_pattern_agrees (pattern : string) (r : fake_redis)
    (mc : gmap string (cached_item O)) (st : stats) :
  plain pattern = true ->
  str_truthy pattern = true ->
  exists mc' r' calls,
    CacheManager.clear (Some pattern) (Manager (Some r) mc st)
      = (Ok tt, Manager (Some r') mc' st, calls) /\
    (forall key, mc' !! key = if contains pattern key then None else mc !! key) /\
    (forall key, r' !! key = if contains pattern key then None else r !! key).
Proof.
  intros Hplain Htruthy.
  unfold CacheManager.clear, bind, get_state, try_except,
    CacheManager.client_scan_iter, CacheManager.on_client.
  cbn [opt_truthy default id]. rewrite Htruthy, for_each_delitem.
  cbn [redis_client memory_cache cache_stats redis_scan_iter fake_redis_client fst snd].
  rewrite for_each_fake_delete. unfold ret. cbn [fst snd].
  do 3 eexists. split; [reflexivity|]. split.
  - intros key. apply lookup_without_matching_keys.
  - intros key. unfold fake_redis in *. rewrite lookup_without_keys.
    destruct (decide (key ∈ List.filter (glob_match ("*" ++ pattern ++ "*"))
                             (map fst (map_to_list r)))) as [Hin|Hnotin].
    + apply list_elem_of_In, filter_In in Hin as [_ Hmatch].
      rewrite (glob_plain_contains _ _ Hplain) in Hmatch. now rewrite Hmatch.
    + destruct (contains pattern key) eqn:Hc; [|reflexivity].
      destruct (r !! key) as [x|] eqn:Hx; [|reflexivity].
      exfalso. apply Hnotin, list_elem_of_In, filter_In. split.
      * apply in_map_iff. exists (key, x). split; [reflexivity|].
        now apply list_elem_of_In, elem_of_map_to_list.
      * now rewrite (glob_plain_contains _ _ Hplain).
Qed.

End ClearOnFakeRedis.

Lemma clear_plain_pattern_agrees_witness :
  let entry : cached_item scalar := CachedItem (PyObj (SInt 1)) 60 in
  let mc : gmap string (cached_item scalar) := <["news_cn" := entry]> {["quote_cn" := entry]} in
  let r : fake_redis := <["news_cn" := (60, "1")]> {["quote_cn" := (60, "1")]} in
  plain "news" = true /\
  str_truthy "news" = true /\
  exists mc' r' calls,
    CacheManager.clear (Some "news") (Manager (Some r) mc (Stats 0 0 0 0))
      = (Ok tt, Manager (Some r') mc' (Stats 0 0 0 0), calls) /\
    mc' !! "news_cn" = None /\ r' !! "news_cn" = None /\
    mc' !! "quote_cn" = Some entry /\ r' !! "quote_cn" = Some (60, "1").
Proof.
  cbv zeta. split; [reflexivity|]. split; [reflexivity|].
  destruct (clear_plain_pattern_agrees "news"
              (<["news_cn" := (60, "1")]> {["quote_cn" := (60, "1")]})
              (<["news_cn" := CachedItem (PyObj (SInt 1)) 60]>
                 {["quote_cn" := CachedItem (PyObj (SInt 1)) 60]})
              (Stats 0 0 0 0) eq_refl eq_refl) as (mc' & r' & calls & Hrun & Hmc & Hr).
  exists mc', r', calls. split; [exact Hrun|].
  rewrite !Hmc, !Hr. vm_compute. repeat split; reflexivity.
Defined.

(** * More of the cache manager

    Properties of the methods beyond the documented ones: what a
    sequence of calls keeps invariant, how the calls compose, and the
    edges of the key derivation. *)

Section Invariants.
Context {O R : Type} {PY : Runtime O} {RC : RedisClient R}.
Implicit Types (self : CacheManager O R) (key cache_type : string) (now refill : Z).

(** [get] for a key that is not in memory, in full: a miss leaves the
    memory cache as it is, a hit on Redis writes the entry. *)
Lemma get_absent_cases now refill key cache_type self :
  memory_cache self !! key = None ->
  exists v self' calls,
    CacheManager.get now refill key cache_type self = (Ok v, self', calls) /\
    ((cache_stats self' = miss_counted (cache_stats self) /\
      memory_cache self' = memory_cache self /\ v = PyNone) \/
     (cache_stats self' = redis_hit_counted (cache_stats self) /\
      memory_cache self' =
        <[key := CachedItem v (refill + Z.min (ttl_config_get cache_type) 300)]> (memory_cache self) /\
      is_Some (redis_client self))) /\
    (redis_client self = None -> redis_client self' = None /\ calls = []).
Proof.
  intros Hnone. destruct (redis_client self) as [r|] eqn:Hrc.
  - destruct (redis_get key r) as [[[payload|]|e] r'] eqn:Hget.
    + destruct (str_truthy payload) eqn:Ht; [destruct (json_loads payload) as [v|] eqn:Hl|].
      * rewrite (get_redis_hit _ _ _ _ _ _ _ _ _ Hnone Hrc Hget Ht Hl).
        do 3 eexists. split; [reflexivity|]. cbn. split; [right|discriminate]. eauto.
      * rewrite (get_redis_miss _ _ _ _ _ _ Hnone Hrc).
        -- do 3 eexists. split; [reflexivity|]. cbn. split; [left|discriminate]. auto.
        -- rewrite Hget. intros p [= <-]. now right.
      * rewrite (get_redis_miss _ _ _ _ _ _ Hnone Hrc).
        -- do 3 eexists. split; [reflexivity|]. cbn. split; [left|discriminate]. auto.
        -- rewrite Hget. intros p [= <-]. now left.
    + rewrite (get_redis_miss _ _ _ _ _ _ Hnone Hrc).
      * do 3 eexists. split; [reflexivity|]. cbn. split; [left|discriminate]. auto.
      * rewrite Hget. discriminate.
    + rewrite (get_redis_miss _ _ _ _ _ _ Hnone Hrc).
      * do 3 eexists. split; [reflexivity|]. cbn. split; [left|discriminate]. auto.
      * rewrite Hget. discriminate.
  - rewrite (get_absent_local _ _ _ _ _ Hnone Hrc).
    do 3 eexists. split; [reflexivity|]. cbn. split; [left|]; auto.
Qed.

(** [get] in full: the value, the counters and the memory cache after
    the call are those of a memory hit, of a hit on Redis, or of a miss. *)
Lemma get_cases now refill key cache_type self :
  exists v self' calls,
    CacheManager.get now refill key cache_type self = (Ok v, self', calls) /\
    ((cache_stats self' = memory_hit_counted (cache_stats self) /\
      memory_cache self' = memory_cache self) \/
     (cache_stats self' = redis_hit_counted (cache_stats self) /\
      memory_cache self' =
        <[key := CachedItem v (refill + Z.min (ttl_config_get cache_type) 300)]> (memory_cache self) /\
      is_Some (redis_client self)) \/
     (cache_stats self' = miss_counted (cache_stats self) /\
      memory_cache self' = base.delete key (memory_cache self) /\ v = PyNone)) /\
    (redis_client self = None -> redis_client self' = None /\ calls = []).
Proof.
  destruct (memory_cache self !! key) as [item|] eqn:Hitem.
  - destruct (Z_lt_le_dec now (item_expiry item)) as [Hlive|Hdead].
    + rewrite (get_memory_hit _ _ _ _ _ _ Hitem Hlive).
      do 3 eexists. split; [reflexivity|]. cbn. split; [left|]; auto.
    + rewrite (get_expired _ _ _ _ _ _ Hitem Hdead).
      destruct (get_absent_cases now refill key cache_type
                  (Manager (redis_client self) (base.delete key (memory_cache self)) (cache_stats self)))
        as (v & s' & calls & Hrun & Hcase & Hrc); [apply lookup_delete_eq|].
      exists v, s', calls. split; [exact Hrun|]. split; [|exact Hrc].
      cbn in Hcase. destruct Hcase as [(Hst & Hmc & Hv)|(Hst & Hmc & Hcl)].
      * right; right. auto.
      * right; left. rewrite Hmc, insert_delete_eq. auto.
  - destruct (get_absent_cases now refill key cache_type self Hitem)
      as (v & s' & calls & Hrun & Hcase & Hrc).
    exists v, s', calls. split; [exact Hrun|]. split; [|exact Hrc].
    destruct Hcase as [(Hst & Hmc & Hv)|(Hst & Hmc & Hcl)].
    + right; right. rewrite (delete_id _ _ Hitem). auto.
    + right; left. auto.
Qed.

(** One call of any method: it returns; the counters stay or move as
    one [get] moves them; an entry of the memory cache was there before
    or was written by this call, which gives it at most 300 seconds from
    the reading it was written at; a manager without a client stays
    without one and makes no call. *)
Lemma perform_cases (op : operation O) self :
  exists self' calls,
    perform op self = (Ok tt, self', calls) /\
    (cache_stats self' = cache_stats self \/
     cache_stats self' = memory_hit_counted (cache_stats self) \/
     (cache_stats self' = redis_hit_counted (cache_stats self) /\ is_Some (redis_client self)) \/
     cache_stats self' = miss_counted (cache_stats self)) /\
    (forall k item,
       memory_cache self' !! k = Some item ->
       memory_cache self !! k = Some item \/
       exists t, written_at op = Some t /\ item_expiry item <= t + 300) /\
    (redis_client self = None -> redis_client self' = None /\ calls = []).
Proof.
  destruct op as [now refill key ct|now key v ct ttl|key|pattern| |now]; cbn [perform written_at].
  - destruct (get_cases now refill key ct self) as (v & s' & calls & Hrun & Hcase & Hrc).
    unfold bind. rewrite Hrun. cbn. rewrite app_nil_r.
    exists s', calls. split; [reflexivity|].
    split; [|split; [|exact Hrc]].
    + destruct Hcase as [(-> & _) | [(-> & _ & Hcl) | (-> & _)]]; auto.
    + intros k item Hk.
      destruct Hcase as [(_ & Hmc)|[(_ & Hmc & _)|(_ & Hmc & _)]]; rewrite Hmc in Hk.
      * now left.
      * destruct (decide (k = key)) as [->|Hne].
        -- rewrite lookup_insert_eq in Hk. injection Hk as <-. right. exists refill.
           split; [reflexivity|]. cbn. lia.
        -- rewrite lookup_insert_ne in Hk by congruence. now left.
      * destruct (decide (k = key)) as [->|Hne].
        -- rewrite lookup_delete_eq in Hk. discriminate.
        -- rewrite lookup_delete_ne in Hk by congruence. now left.
  - destruct (set_returns now key v ct ttl self) as (rc & -> & Hrc).
    do 2 eexists. split; [reflexivity|]. cbn. split; [now left|]. split.
    + intros k item Hk. destruct (decide (k = key)) as [->|Hne].
      * rewrite lookup_insert_eq in Hk. injection Hk as <-. right. exists now.
        split; [reflexivity|]. cbn. lia.
      * rewrite lookup_insert_ne in Hk by congruence. now left.
    + intros Hnone. rewrite Hnone. auto.
  - destruct (delete_returns key self) as (rc & -> & Hrc).
    do 2 eexists. split; [reflexivity|]. cbn. split; [now left|]. split.
    + intros k item Hk. left. destruct (decide (k = key)) as [->|Hne].
      * rewrite lookup_delete_eq in Hk. discriminate.
      * now rewrite lookup_delete_ne in Hk by congruence.
    + intros Hnone. rewrite Hnone. auto.
  - destruct (opt_truthy pattern) eqn:Ht.
    + destruct pattern as [p|]; [|discriminate]. cbn in Ht.
      destruct (clear_pattern_returns p self Ht) as (rc & calls & -> & Hcl).
      do 2 eexists. split; [reflexivity|]. cbn. split; [now left|]. split.
      * intros k item Hk. left. rewrite lookup_without_matching_keys in Hk.
        now destruct (contains p k).
      * intros Hnone. rewrite Hnone in Hcl. exact Hcl.
    + destruct (clear_all_returns pattern self Ht) as (rc & -> & Hrc).
      do 2 eexists. split; [reflexivity|]. cbn. split; [now left|]. split.
      * intros k item Hk. now rewrite lookup_empty in Hk.
      * intros Hnone. rewrite Hnone. auto.
  - unfold bind. rewrite get_stats_returns. cbn.
    do 2 eexists. split; [reflexivity|]. split; [now left|]. split; auto.
  - unfold bind. rewrite cleanup_expired_returns. cbn -[without_keys].
    do 2 eexists. split; [reflexivity|]. split; [now left|]. split; [|auto].
    intros k item Hk. left. cbn [memory_cache] in Hk. rewrite lookup_without_keys in Hk.
    now destruct (decide _).
Qed.

(** The same over a sequence of calls, for a property [I] of the
    manager that every call keeps. *)
Lemma run_keeps (I : CacheManager O R -> Prop) (ops : list (operation O)) :
  (forall op self self' calls,
     In op ops -> I self -> perform op self = (Ok tt, self', calls) -> I self') ->
  forall self, I self ->
    exists self' calls,
      run ops self = (Ok tt, self', calls) /\ I self' /\
      (redis_client self = None -> redis_client self' = None /\ calls = []).
Proof.
  induction ops as [|op ops IH]; intros Hstep self HI.
  - exists self, []. auto.
  - destruct (perform_cases op self) as (s1 & calls1 & Hrun1 & _ & _ & Hrc1).
    destruct (IH (fun op' a b c Hin => Hstep op' a b c (or_intror Hin)) s1
                 (Hstep op self s1 calls1 (or_introl eq_refl) HI Hrun1))
      as (s2 & calls2 & Hrun2 & HI2 & Hrc2).
    exists s2, (calls1 ++ calls2)%list. split; [|split; [exact HI2|]].
    + unfold run in *. cbn [for_each]. unfold bind at 1. rewrite Hrun1, Hrun2. reflexivity.
    + intros Hnone. destruct (Hrc1 Hnone) as [Hnone1 ->].
      destruct (Hrc2 Hnone1) as [Hnone2 ->]. auto.
Qed.


(** X4. The memory tier never keeps an entry longer than 300 seconds:
    after any calls on a new manager none of which writes at a clock
    reading after [T], every entry of the memory cache expires at
    [T + 300] at the latest, whatever TTLs were asked for. *)
Theorem memory_entries_expire_within_300 (client : option R) (ops : list (operation O)) (T : Z) :
  clock_bounded T ops ->
  let '(res, self, _) := run ops (CacheManager.__init__ client) in
  res = Ok tt /\
  forall key item, memory_cache self !! key = Some item -> item_expiry item <= T + 300.
Proof.
  intros Hclock.
  pose (I := fun self : CacheManager O R =>
    forall key item, memory_cache self !! key = Some item -> item_expiry item <= T + 300).
  destruct (run_keeps I ops) with (self := CacheManager.__init__ (O := O) client)
    as (self & calls & -> & HI & _).
  - intros op s s' calls Hin HI Hrun key item Hk.
    destruct (perform_cases op s) as (s1 & calls1 & Hrun1 & _ & Hmc & _).
    rewrite Hrun in Hrun1. injection Hrun1 as <- <-.
    destruct (Hmc key item Hk) as [Hold|(t & Ht & Hle)]; [now apply (HI key)|].
    unfold clock_bounded in Hclock. rewrite List.Forall_forall in Hclock.
    specialize (Hclock op Hin). rewrite Ht in Hclock. lia.
  - intros key item Hk. cbn in Hk. now rewrite lookup_empty in Hk.
  - split; [reflexivity|exact HI].
Qed.

End Invariants.

Lemma memory_entries_expire_within_300_witness :
  let ops : list (operation scalar) :=
    [OpSet 100 "a" (PyObj (SInt 1)) "long" None;
     OpSet 40 "b" (PyObj (SInt 2)) "quick" (Some 86400);
     OpGet 100 100 "c" "news"] in
  clock_bounded 100 ops /\
  let '(res, self, _) := run ops (CacheManager.__init__ (Some (∅ : fake_redis))) in
  res = Ok tt /\
  forall key item, memory_cache self !! key = Some item -> item_expiry item <= 100 + 300.
Proof.
  cbv zeta.
  assert (H : clock_bounded 100
    [OpSet 100 "a" (PyObj (SInt 1)) "long" None;
     OpSet 40 "b" (PyObj (SInt 2)) "quick" (Some 86400);
     OpGet (O := scalar) 100 100 "c" "news"]).
  { unfold clock_bounded. repeat constructor; cbn; lia. }
  split; [exact H|].
  exact (memory_entries_expire_within_300 (Some (∅ : fake_redis)) _ 100 H).
Defined.

(** ** How the calls compose *)

Section Compositions.
Context {O R : Type} {PY : Runtime O} {RC : RedisClient R}.
Implicit Types (self : CacheManager O R) (key cache_type : string) (now refill : Z).

(** [set] on a manager with a client, for a value that has a JSON form:
    the client is asked once, and its answer does not matter. *)
Lemma set_with_client now key (v : value O) cache_type ttl self r payload :
  redis_client self = Some r ->
  json_dumps v = Some payload ->
  CacheManager.set now key v cache_type ttl self =
    (Ok tt,
     Manager (Some (snd (redis_setex key (default (ttl_config_get cache_type) ttl) payload r)))
             (<[key := CachedItem v (now + Z.min (default (ttl_config_get cache_type) ttl) 300)]>
                (memory_cache self))
             (cache_stats self),
     [CallSetex key (default (ttl_config_get cache_type) ttl) payload]).
Proof.
  intros Hrc Hdumps. unfold CacheManager.set. unfold_monad. cbn.
  rewrite Hrc, Hdumps. cbn. rewrite ?Hrc.
  destruct ttl as [t|]; cbn;
    destruct (redis_setex _ _ _ _) as [[[]|e] r']; reflexivity.
Qed.

(** [set] on a manager without a client. *)
Lemma set_without_client now key (v : value O) cache_type ttl self :
  redis_client self = None ->
  CacheManager.set now key v cache_type ttl self =
    (Ok tt,
     Manager None
             (<[key := CachedItem v (now + Z.min (default (ttl_config_get cache_type) ttl) 300)]>
                (memory_cache self))
             (cache_stats self),
     []).
Proof.
  intros Hrc. destruct (set_returns now key v cache_type ttl self) as (rc & -> & Hnone).
  rewrite (Hnone Hrc), Hrc. reflexivity.
Qed.

(** Two managers that differ in memory only, neither holding the key:
    [get] answers, counts and calls the client alike on both. *)
Lemma get_absent_agrees now refill key cache_type (a b : CacheManager O R) :
  memory_cache a !! key = None ->
  memory_cache b !! key = None ->
  redis_client a = redis_client b ->
  cache_stats a = cache_stats b ->
  let '(ra, a', ca) := CacheManager.get now refill key cache_type a in
  let '(rb, b', cb) := CacheManager.get now refill key cache_type b in
  ra = rb /\ ca = cb /\
  redis_client a' = redis_client b' /\
  cache_stats a' = cache_stats b' /\
  memory_cache a' !! key = memory_cache b' !! key.
Proof.
  intros Ha Hb Hrc Hst. destruct (redis_client a) as [r|] eqn:Hrca; symmetry in Hrc.
  - assert (Hmiss :
      (forall payload, fst (redis_get key r) = Ok (Some payload) ->
         str_truthy payload = false \/ json_loads payload = None) ->
      let '(ra, a', ca) := CacheManager.get now refill key cache_type a in
      let '(rb, b', cb) := CacheManager.get now refill key cache_type b in
      ra = rb /\ ca = cb /\
      redis_client a' = redis_client b' /\
      cache_stats a' = cache_stats b' /\
      memory_cache a' !! key = memory_cache b' !! key).
    { intros Hbad.
      rewrite (get_redis_miss _ _ _ _ _ _ Ha Hrca Hbad), (get_redis_miss _ _ _ _ _ _ Hb Hrc Hbad).
      cbn. rewrite Hst, Ha, Hb. auto. }
    destruct (redis_get key r) as [[[payload|]|e] r'] eqn:Hget.
    + destruct (str_truthy payload) eqn:Ht; [destruct (json_loads payload) as [v|] eqn:Hl|].
      * rewrite (get_redis_hit _ _ _ _ _ _ _ _ _ Ha Hrca Hget Ht Hl),
                (get_redis_hit _ _ _ _ _ _ _ _ _ Hb Hrc Hget Ht Hl).
        cbn. rewrite Hst, !lookup_insert_eq. auto.
      * apply Hmiss. intros p [= <-]. now right.
      * apply Hmiss. intros p [= <-]. now left.
    + apply Hmiss. discriminate.
    + apply Hmiss. discriminate.
  - rewrite (get_absent_local _ _ _ _ _ Ha Hrca), (get_absent_local _ _ _ _ _ Hb Hrc).
    cbn. rewrite Hst, Ha, Hb. auto.
Qed.

(** What a sweep leaves of an entry. *)
Lemma lookup_swept now (mc : gmap string (cached_item O)) key :
  without_keys
    (map fst (List.filter (fun kv : string * cached_item O => item_expiry (snd kv) <=? now)
                          (map_to_list mc))) mc !! key =
    match mc !! key with
    | Some item => if item_expiry item <=? now then None else Some item
    | None => None
    end.
Proof.
  rewrite lookup_without_keys.
  destruct (decide (key ∈ _)) as [Hin|Hnotin].
  - apply elem_of_picked in Hin as (item & -> & Hexp). cbn in Hexp. now rewrite Hexp.
  - destruct (mc !! key) as [item|] eqn:Hitem; [|reflexivity].
    destruct (item_expiry item <=? now) eqn:Hexp; [|reflexivity].
    exfalso. apply Hnotin. apply elem_of_picked. now exists item.
Qed.

(** X5. The last write wins. After two [set]s of the same key the
    memory cache is what the second one alone would have left: the
    second value, with the expiry computed from the second call's clock
    reading and TTL, also when that is earlier than the first one's.
    The counters are untouched, and [get] serves the second value
    until that expiry without asking the client. *)
Theorem set_last_write_wins now1 now2 key (v1 v2 : value O) ct1 ct2 ttl1 ttl2 self :
  let '(_, self1, _) := CacheManager.set now1 key v1 ct1 ttl1 self in
  let '(res, self2, _) := CacheManager.set now2 key v2 ct2 ttl2 self1 in
  let expiry := now2 + Z.min (default (ttl_config_get ct2) ttl2) 300 in
  res = Ok tt /\
  memory_cache self2 = <[key := CachedItem v2 expiry]> (memory_cache self) /\
  cache_stats self2 = cache_stats self /\
  (forall now refill cache_type,
     now < expiry ->
     exists self3, CacheManager.get now refill key cache_type self2 = (Ok v2, self3, [])).
Proof.
  destruct (set_returns now1 key v1 ct1 ttl1 self) as (rc1 & -> & _).
  destruct (set_returns now2 key v2 ct2 ttl2
              (Manager rc1 (<[key := CachedItem v1 (now1 + Z.min (default (ttl_config_get ct1) ttl1) 300)]>
                              (memory_cache self)) (cache_stats self)))
    as (rc2 & -> & _).
  cbn [memory_cache cache_stats]. rewrite insert_insert_eq.
  split; [reflexivity|]. split; [reflexivity|]. split; [reflexivity|].
  intros now refill cache_type Hlive. eexists.
  apply (get_memory_hit now refill key cache_type _
           (CachedItem v2 (now2 + Z.min (default (ttl_config_get ct2) ttl2) 300))).
  - cbn. apply lookup_insert_eq.
  - exact Hlive.
Qed.

(** X6. An entry is gone once the clock reaches its expiry. On a
    manager without a client, [get] at a reading that is not before the
    expiry [set] computed returns [None], counts a miss and removes the
    entry; so an entry written with a TTL of zero or less is never
    served, not even at the reading it was written at. *)
Theorem get_after_expiry_misses now now' refill key (v : value O) ct ct' ttl self :
  redis_client self = None ->
  now + Z.min (default (ttl_config_get ct) ttl) 300 <= now' ->
  let '(_, self1, _) := CacheManager.set now key v ct ttl self in
  CacheManager.get now' refill key ct' self1 =
    (Ok PyNone,
     Manager None (base.delete key (memory_cache self)) (miss_counted (cache_stats self)),
     []).
Proof.
  intros Hrc Hdead. rewrite (set_without_client _ _ _ _ _ _ Hrc).
  rewrite (get_expired now' refill key ct' _
             (CachedItem v (now + Z.min (default (ttl_config_get ct) ttl) 300)));
    [|cbn; apply lookup_insert_eq|exact Hdead].
  cbn [redis_client memory_cache cache_stats]. rewrite delete_insert_eq.
  rewrite get_absent_local; [reflexivity|cbn; apply lookup_delete_eq|reflexivity].
Qed.

(** X7. Reading through to Redis. When the client stored the payload
    of a [set] and hands it back, a [get] made after the entry in
    memory has expired returns what [json.loads] makes of the payload
    (which need not be the object that was stored), counts a Redis hit,
    and writes that value back to memory for [min(TTL of the category
    given to get, 300)] seconds from the reading at the refill: the TTL
    given to [set] plays no part in it. *)
Theorem get_reads_through_to_redis now now' refill key (v v' : value O) ct ct' ttl self
    r r1 r2 payload :
  redis_client self = Some r ->
  json_dumps v = Some payload ->
  redis_setex key (default (ttl_config_get ct) ttl) payload r = (Ok tt, r1) ->
  redis_get key r1 = (Ok (Some payload), r2) ->
  str_truthy payload = true ->
  json_loads payload = Some v' ->
  now + Z.min (default (ttl_config_get ct) ttl) 300 <= now' ->
  let '(_, self1, calls) := CacheManager.set now key v ct ttl self in
  calls = [CallSetex key (default (ttl_config_get ct) ttl) payload] /\
  CacheManager.get now' refill key ct' self1 =
    (Ok v',
     Manager (Some r2)
             (<[key := CachedItem v' (refill + Z.min (ttl_config_get ct') 300)]> (memory_cache self))
             (redis_hit_counted (cache_stats self)),
     [CallGet key]).
Proof.
  intros Hrc Hdumps Hsetex Hget Ht Hloads Hdead.
  rewrite (set_with_client _ _ _ _ _ _ _ _ Hrc Hdumps), Hsetex. cbn [snd].
  split; [reflexivity|].
  rewrite (get_expired now' refill key ct' _
             (CachedItem v (now + Z.min (default (ttl_config_get ct) ttl) 300)));
    [|cbn; apply lookup_insert_eq|exact Hdead].
  cbn [redis_client memory_cache cache_stats]. rewrite delete_insert_eq.
  rewrite (get_redis_hit now' refill key ct' _ r1 r2 payload v');
    [|cbn; apply lookup_delete_eq|reflexivity|exact Hget|exact Ht|exact Hloads].
  cbn [redis_client memory_cache cache_stats]. rewrite insert_delete_eq. reflexivity.
Qed.

End Compositions.

Section Removal.
Context {O R : Type} {PY : Runtime O} {RC : RedisClient R}.
Implicit Types (self : CacheManager O R) (key cache_type : string) (now refill : Z).

(** X8. [delete] always returns, also for a key that was never set,
    and whatever the client answers: the key is gone from memory, every
    other entry and the counters are as before, and the client, if
    there is one, is asked exactly once to delete the key. On a manager
    without a client the next [get] of the key is a miss at any clock
    reading. *)
Theorem delete_forgets_key key self :
  let '(res, self1, calls) := CacheManager.delete key self in
  res = Ok tt /\
  memory_cache self1 !! key = None /\
  (forall k, k <> key -> memory_cache self1 !! k = memory_cache self !! k) /\
  (memory_cache self !! key = None -> memory_cache self1 = memory_cache self) /\
  cache_stats self1 = cache_stats self /\
  calls = match redis_client self with Some _ => [CallDelete key] | None => [] end /\
  (redis_client self = None ->
   forall now refill cache_type,
     CacheManager.get now refill key cache_type self1 =
       (Ok PyNone, Manager None (memory_cache self1) (miss_counted (cache_stats self)), [])).
Proof.
  destruct (delete_returns key self) as (rc & -> & Hrc).
  cbn [memory_cache cache_stats].
  split; [reflexivity|]. split; [apply lookup_delete_eq|].
  split; [intros k Hk; now apply lookup_delete_ne|].
  split; [intros Hnone; now apply delete_id|].
  split; [reflexivity|]. split; [reflexivity|].
  intros Hnone now refill cache_type. rewrite (Hrc Hnone).
  rewrite get_absent_local; [reflexivity|cbn; apply lookup_delete_eq|reflexivity].
Qed.

(** X9. A sweep only removes what [get] would not serve. For a [get]
    at a clock reading that is not before the sweep's, it makes no
    difference whether [cleanup_expired] ran first: the value returned,
    the calls made to the client, the counters, the client and the
    entry of the key afterwards are the same. And a second sweep at the
    same or an earlier reading finds nothing to remove. *)
Theorem cleanup_expired_is_transparent now now' now2 refill key cache_type self :
  now <= now' ->
  now2 <= now ->
  let '(_, swept, _) := CacheManager.cleanup_expired now self in
  let '(res1, self1, calls1) := CacheManager.get now' refill key cache_type swept in
  let '(res2, self2, calls2) := CacheManager.get now' refill key cache_type self in
  res1 = res2 /\ calls1 = calls2 /\
  redis_client self1 = redis_client self2 /\
  cache_stats self1 = cache_stats self2 /\
  memory_cache self1 !! key = memory_cache self2 !! key /\
  CacheManager.cleanup_expired now2 swept = (Ok 0, swept, []).
Proof.
  intros Hlater Hearlier.
  pose proof (cleanup_expired_returns now self) as Hrun. cbv zeta in Hrun.
  rewrite Hrun. clear Hrun.
  set (mc' := without_keys _ (memory_cache self)).
  assert (Hlookup : forall k,
    mc' !! k = match memory_cache self !! k with
               | Some item => if item_expiry item <=? now then None else Some item
               | None => None
               end) by (intros k; apply lookup_swept).
  set (swept := Manager (redis_client self) mc' (cache_stats self)).
  assert (Hagain : CacheManager.cleanup_expired now2 swept = (Ok 0, swept, [])).
  { pose proof (cleanup_expired_returns now2 swept) as Hrun. cbv zeta in Hrun.
    rewrite Hrun. clear Hrun.
    assert (Hnil : List.filter (fun kv : string * cached_item O => item_expiry (snd kv) <=? now2)
                               (map_to_list (memory_cache swept)) = []).
    { remember (List.filter (fun kv : string * cached_item O => item_expiry (snd kv) <=? now2)
                            (map_to_list (memory_cache swept))) as l eqn:Hf.
      destruct l as [|[k item] l]; [reflexivity|]. exfalso.
      assert (Hin : In (k, item) (List.filter
                (fun kv : string * cached_item O => item_expiry (snd kv) <=? now2)
                (map_to_list (memory_cache swept)))) by (rewrite <- Hf; now left).
      apply filter_In in Hin as [Hin Hexp]. cbn in Hexp.
      apply list_elem_of_In, elem_of_map_to_list in Hin. cbn in Hin.
      rewrite Hlookup in Hin.
      destruct (memory_cache self !! k) as [item'|]; [|discriminate].
      destruct (Z.leb_spec (item_expiry item') now); [discriminate|].
      injection Hin as ->. lia. }
    rewrite Hnil. reflexivity. }
  destruct (memory_cache self !! key) as [item|] eqn:Hitem.
  - destruct (Z_lt_le_dec now' (item_expiry item)) as [Hlive|Hdead].
    + assert (Hkept : memory_cache swept !! key = Some item).
      { cbn. rewrite Hlookup, Hitem.
        destruct (Z.leb_spec (item_expiry item) now); [lia|reflexivity]. }
      rewrite (get_memory_hit _ _ _ _ _ _ Hkept Hlive), (get_memory_hit _ _ _ _ _ _ Hitem Hlive).
      unfold swept in *. cbn [memory_cache cache_stats redis_client] in *.
      rewrite Hkept, Hitem. auto 10.
    + rewrite (get_expired _ _ _ _ self _ Hitem Hdead).
      rewrite (get_stale now' refill key cache_type swept).
      2:{ intros item'. cbn. rewrite Hlookup, Hitem.
          destruct (item_expiry item <=? now); [discriminate|]. intros [= <-]. exact Hdead. }
      pose proof (get_absent_agrees now' refill key cache_type
        (Manager (redis_client swept) (base.delete key (memory_cache swept)) (cache_stats swept))
        (Manager (redis_client self) (base.delete key (memory_cache self)) (cache_stats self)))
        as Hagree.
      destruct (CacheManager.get now' refill key cache_type (Manager (redis_client swept) _ _))
        as [[res1 self1] calls1].
      destruct (CacheManager.get now' refill key cache_type (Manager (redis_client self) _ _))
        as [[res2 self2] calls2].
      destruct Hagree as (? & ? & ? & ? & ?);
        [apply lookup_delete_eq|apply lookup_delete_eq|reflexivity|reflexivity|].
      auto 10.
  - pose proof (get_absent_agrees now' refill key cache_type swept self) as Hagree.
    destruct (CacheManager.get now' refill key cache_type swept) as [[res1 self1] calls1].
    destruct (CacheManager.get now' refill key cache_type self) as [[res2 self2] calls2].
    destruct Hagree as (? & ? & ? & ? & ?);
      [cbn; now rewrite Hlookup, Hitem|exact Hitem|reflexivity|reflexivity|].
    auto 10.
Qed.

End Removal.

Section RemovalOnFakeRedis.
Context {O : Type} {PY : Runtime O}.

(** X10. With a client that stores what it is given, [delete] after
    [set] removes the key from both tiers, so the next [get] is a miss
    although nothing has expired: it asks the client once and finds
    nothing. *)
Theorem delete_removes_both_tiers now now' refill key (v : value O) ct ct' ttl
    (r : fake_redis) (mc : gmap string (cached_item O)) (st : stats) :
  let '(_, self1, _) := CacheManager.set now key v ct ttl (Manager (Some r) mc st) in
  let '(res, self2, calls) := CacheManager.delete key self1 in
  res = Ok tt /\
  calls = [CallDelete key] /\
  self2 = Manager (Some (base.delete key r)) (base.delete key mc) st /\
  CacheManager.get now' refill key ct' self2 =
    (Ok PyNone, Manager (Some (base.delete key r)) (base.delete key mc) (miss_counted st),
     [CallGet key]).
Proof.
  assert (Hset : exists r1,
    fst (fst (CacheManager.set now key v ct ttl (Manager (Some r) mc st))) = Ok tt /\
    snd (fst (CacheManager.set now key v ct ttl (Manager (Some r) mc st)))
      = Manager (Some r1)
          (<[key := CachedItem v (now + Z.min (default (ttl_config_get ct) ttl) 300)]> mc) st /\
    base.delete key r1 = base.delete key r).
  { destruct (json_dumps v) as [payload|] eqn:Hdumps.
    - rewrite (set_with_client now key v ct ttl (Manager (Some r) mc st) r payload eq_refl Hdumps). cbn -[Z.min].
      destruct (default (ttl_config_get ct) ttl <=? 0); cbn -[Z.min];
        eexists; (split; [reflexivity|]); (split; [reflexivity|]);
        [reflexivity|unfold fake_redis in *; apply delete_insert_eq].
    - unfold CacheManager.set. unfold_monad. cbn -[Z.min]. rewrite Hdumps.
      destruct ttl; cbn -[Z.min]; eexists; (split; [reflexivity|]); (split; [reflexivity|]);
        reflexivity. }
  destruct Hset as (r1 & Hres & Hself1 & Hdel).
  destruct (CacheManager.set now key v ct ttl (Manager (Some r) mc st)) as [[res1 self1] calls1].
  cbn in Hres, Hself1. subst self1.
  assert (Hdelete :
    CacheManager.delete key
      (Manager (Some r1)
         (<[key := CachedItem v (now + Z.min (default (ttl_config_get ct) ttl) 300)]> mc) st)
    = (Ok tt, Manager (Some (base.delete key r)) (base.delete key mc) st, [CallDelete key])).
  { unfold CacheManager.delete. unfold_monad. cbn -[Z.min].
    rewrite lookup_insert_eq. cbn -[Z.min]. rewrite delete_insert_eq, Hdel. reflexivity. }
  rewrite Hdelete. split; [reflexivity|]. split; [reflexivity|]. split; [reflexivity|].
  rewrite (get_redis_miss now' refill key ct' _ (base.delete key r));
    [|cbn; apply lookup_delete_eq|reflexivity|].
  - reflexivity.
  - cbn. unfold fake_redis in *. rewrite lookup_delete_eq. discriminate.
Qed.

End RemovalOnFakeRedis.

Lemma get_after_expiry_misses_witness :
  let self : CacheManager scalar fake_redis := CacheManager.__init__ None in
  redis_client self = None /\
  1000 + Z.min (default (ttl_config_get "quick") (Some 0)) 300 <= 1000 /\
  let '(_, self1, _) := CacheManager.set 1000 "k" (PyObj (SInt 1)) "quick" (Some 0) self in
  CacheManager.get 1000 1000 "k" "quick" self1 =
    (Ok PyNone,
     Manager None (base.delete "k" (memory_cache self)) (miss_counted (cache_stats self)),
     []).
Proof.
  cbv zeta. split; [reflexivity|]. split; [cbn; lia|].
  apply (get_after_expiry_misses 1000 1000 1000 "k" (PyObj (SInt 1)) "quick" "quick" (Some 0)
           (CacheManager.__init__ (None : option fake_redis))); [reflexivity|cbn; lia].
Defined.

Lemma get_reads_through_to_redis_witness :
  let self : CacheManager scalar fake_redis := CacheManager.__init__ (Some ∅) in
  let stored : fake_redis := <["k" := (3600, "7")]> ∅ in
  json_dumps (PyObj (SInt 7)) = Some "7" /\
  redis_get "k" stored = (Ok (Some "7"), stored) /\
  json_loads "7" = Some (PyObj (SInt 7)) /\
  let '(_, self1, calls) :=
    CacheManager.set 1000 "k" (PyObj (SInt 7)) "quick" (Some 3600) self in
  calls = [CallSetex "k" (default (ttl_config_get "quick") (Some 3600)) "7"] /\
  CacheManager.get 1300 1301 "k" "news" self1 =
    (Ok (PyObj (SInt 7)),
     Manager (Some stored)
             (<["k" := CachedItem (PyObj (SInt 7)) (1301 + Z.min (ttl_config_get "news") 300)]>
                (memory_cache self))
             (redis_hit_counted (cache_stats self)),
     [CallGet "k"]).
Proof.
  cbv zeta. split; [reflexivity|]. split; [reflexivity|]. split; [reflexivity|].
  apply (get_reads_through_to_redis 1000 1300 1301 "k" (PyObj (SInt 7)) (PyObj (SInt 7))
           "quick" "news" (Some 3600) (CacheManager.__init__ (Some (∅ : fake_redis)))
           ∅ (<["k" := (3600, "7")]> ∅) (<["k" := (3600, "7")]> ∅) "7");
    first [reflexivity | cbn; lia].
Defined.

Lemma cleanup_expired_is_transparent_witness :
  let self : CacheManager scalar fake_redis :=
    Manager None (<["a" := CachedItem (PyObj (SInt 1)) 50]> {["b" := CachedItem (PyObj (SInt 2)) 70]})
            (Stats 0 0 0 0) in
  50 <= 60 /\ 50 <= 50 /\
  let '(_, swept, _) := CacheManager.cleanup_expired 50 self in
  let '(res1, self1, calls1) := CacheManager.get 60 60 "b" "quick" swept in
  let '(res2, self2, calls2) := CacheManager.get 60 60 "b" "quick" self in
  res1 = res2 /\ calls1 = calls2 /\
  redis_client self1 = redis_client self2 /\
  cache_stats self1 = cache_stats self2 /\
  memory_cache self1 !! "b" = memory_cache self2 !! "b" /\
  CacheManager.cleanup_expired 50 swept = (Ok 0, swept, []).
Proof.
  cbv zeta. split; [lia|]. split; [lia|].
  apply (cleanup_expired_is_transparent 50 60 50 60 "b" "quick"
           (Manager (None : option fake_redis)
              (<["a" := CachedItem (PyObj (SInt 1)) 50]> {["b" := CachedItem (PyObj (SInt 2)) 70]})
              (Stats 0 0 0 0))); lia.
Defined.

(** ** The edges of the key derivation *)

Lemma append_assoc (a b c : string) : ((a ++ b) ++ c = a ++ (b ++ c))%string.
Proof.
  induction a as [|x a IH]; [now rewrite !append_empty_l|].
  now rewrite !append_String, IH.
Qed.

Section KeyEdges.
Context {O : Type} {PY : Runtime O}.


(** X12. The components are joined by [":"] and nothing is escaped,
    so the key does not tell where one argument ends and the next one
    begins: an argument whose [str()] is [str(a) + ":" + str(b)] gives
    the same key as the two arguments [a] and [b] in its place, and a
    prefix that ends in [":" + str(a)] the same key as the shorter
    prefix with [a] as first argument. *)
Theorem generate_cache_key_joins_arguments prefix (x a b : value O) rest kwargs :
  py_str x = (py_str a ++ ":" ++ py_str b)%string ->
  CacheManager._generate_cache_key prefix (x :: rest) kwargs
    = CacheManager._generate_cache_key prefix (a :: b :: rest) kwargs /\
  CacheManager._generate_cache_key (prefix ++ ":" ++ py_str a) rest kwargs
    = CacheManager._generate_cache_key prefix (a :: rest) kwargs.
Proof.
  intros Hstr.
  assert (Hjoin : forall s t tl,
    join ":" ((s ++ ":" ++ t)%string :: tl) = (s ++ ":" ++ join ":" (t :: tl))%string).
  { intros s t [|u tl]; [reflexivity|].
    cbn [join]. now rewrite !append_assoc. }
  assert (Hcons : forall s t tl,
    join ":" (s :: t :: tl) = (s ++ ":" ++ join ":" (t :: tl))%string) by reflexivity.
  split.
  - rewrite !generate_cache_key_shape.
    assert (Heq : CacheManager.key_str prefix (x :: rest) kwargs
                  = CacheManager.key_str prefix (a :: b :: rest) kwargs).
    { unfold CacheManager.key_str. cbn [map app].
      rewrite !Hcons, Hstr, Hjoin. reflexivity. }
    now rewrite Heq.
  - rewrite !generate_cache_key_shape.
    assert (Heq : CacheManager.key_str (prefix ++ ":" ++ py_str a) rest kwargs
                  = CacheManager.key_str prefix (a :: rest) kwargs).
    { unfold CacheManager.key_str. cbn [map app]. rewrite Hjoin, Hcons. reflexivity. }
    now rewrite Heq.
Qed.

End KeyEdges.

Lemma generate_cache_key_joins_arguments_witness :
  py_str (PyObj (SStr "1:2")) = (py_str (PyObj (SInt 1)) ++ ":" ++ py_str (PyObj (SInt 2)))%string /\
  CacheManager._generate_cache_key "f" [PyObj (SStr "1:2")] []
    = CacheManager._generate_cache_key "f" [PyObj (SInt 1); PyObj (SInt 2)] [] /\
  CacheManager._generate_cache_key ("f" ++ ":" ++ py_str (PyObj (SInt 1))) [] []
    = CacheManager._generate_cache_key "f" [PyObj (SInt 1)] [].
Proof.
  split; [reflexivity|].
  apply (generate_cache_key_joins_arguments "f" (PyObj (SStr "1:2")) (PyObj (SInt 1))
           (PyObj (SInt 2)) [] []).
  reflexivity.
Defined.

(** ** Exceptions of a wrapped function *)

Section DecoratorEdges.
Context {O R F : Type} {PY : Runtime O} {RC : RedisClient R}.
Implicit Types (self : Owner O R F) (mgr : CacheManager O R) (func : callable O F).


End DecoratorEdges.


(** * create_cache_manager *)

Lemma lower_char_is (l : ascii) (c : ascii) :
  (97 <=? code l) && (code l <=? 122) = true ->
  lower_char c = l <-> c = l \/ c = ascii_of_nat (nat_of_ascii l - 32).
Proof.
  intros Hl.
  destruct l as [[] [] [] [] [] [] [] []]; try discriminate Hl;
    destruct c as [[] [] [] [] [] [] [] []]; vm_compute;
    (split; [intros H; first [discriminate H | now left | now right]
            |intros [H|H]; first [discriminate H | reflexivity]]).
Qed.

(** The values of the flag that switch Redis on: the word "true" in
    any mix of capital and small letters, and nothing else. *)
Lemma lower_true (s : string) :
  lower s = "true" <->
  exists a b c d,
    s = String a (String b (String c (String d EmptyString))) /\
    (a = "t" \/ a = "T")%char /\ (b = "r" \/ b = "R")%char /\
    (c = "u" \/ c = "U")%char /\ (d = "e" \/ d = "E")%char.
Proof.
  split.
  - destruct s as [|a [|b [|c [|d [|? ?]]]]]; cbn [lower]; try discriminate.
    intros [= Ha Hb Hc Hd]. exists a, b, c, d. split; [reflexivity|].
    apply (lower_char_is "t" a eq_refl) in Ha. apply (lower_char_is "r" b eq_refl) in Hb.
    apply (lower_char_is "u" c eq_refl) in Hc. apply (lower_char_is "e" d eq_refl) in Hd.
    auto.
  - intros (a & b & c & d & -> & Ha & Hb & Hc & Hd). cbn [lower].
    apply (lower_char_is "t" a eq_refl) in Ha. apply (lower_char_is "r" b eq_refl) in Hb.
    apply (lower_char_is "u" c eq_refl) in Hc. apply (lower_char_is "e" d eq_refl) in Hd.
    now rewrite Ha, Hb, Hc, Hd.
Qed.

Section Factory.
Context {O R : Type} {RP : RedisPackage R}.

(** X14. [create_cache_manager] always returns a new manager: empty
    memory cache, counters at zero. The manager has a client exactly
    when the flag [USE_REDIS_CACHE] reads "true" in any mix of capital
    and small letters, the package can be imported, [from_url] returns
    a client for [REDIS_URL] (or, when that is not set, for
    [redis://localhost:6379/0]) and its [ping] succeeds; the client is
    then the one that answered the ping. In every other case,
    whichever step failed, the manager has no client and no exception
    escapes. When the flag is not set, or reads anything else ("1",
    "yes", "on"), the package is not called at all. *)
Theorem create_cache_manager_connects (environ : gmap string string) :
  let flag := os_getenv environ "USE_REDIS_CACHE" "False" in
  let url := os_getenv environ "REDIS_URL" "redis://localhost:6379/0" in
  let enabled :=
    exists a b c d,
      flag = String a (String b (String c (String d EmptyString))) /\
      (a = "t" \/ a = "T")%char /\ (b = "r" \/ b = "R")%char /\
      (c = "u" \/ c = "U")%char /\ (d = "e" \/ d = "E")%char in
  let '(mgr, calls) := create_cache_manager (O := O) environ in
  memory_cache mgr = ∅ /\
  cache_stats mgr = Stats 0 0 0 0 /\
  (forall client,
     redis_client mgr = Some client <->
     enabled /\ redis_installed = true /\
     exists connected,
       redis_from_url url = Ok connected /\ redis_ping connected = (Ok tt, client)) /\
  (~ enabled -> calls = []) /\
  (environ !! "USE_REDIS_CACHE" = None -> redis_client mgr = None /\ calls = []) /\
  (environ !! "REDIS_URL" = None -> forall u, In (CallFromUrl u) calls ->
     u = "redis://localhost:6379/0").
Proof.
  cbv zeta. unfold create_cache_manager.
  pose proof (lower_true (os_getenv environ "USE_REDIS_CACHE" "False")) as Hflag.
  destruct (String.eqb_spec (lower (os_getenv environ "USE_REDIS_CACHE" "False")) "true")
    as [Heq|Hne].
  - apply Hflag in Heq as Hen.
    assert (Hset : environ !! "USE_REDIS_CACHE" <> None).
    { intros Hnone. unfold os_getenv in Heq. rewrite Hnone in Heq. discriminate Heq. }
    assert (Hurl : environ !! "REDIS_URL" = None ->
                   os_getenv environ "REDIS_URL" "redis://localhost:6379/0"
                   = "redis://localhost:6379/0").
    { intros Hnone. unfold os_getenv. now rewrite Hnone. }
    destruct redis_installed eqn:Hinst.
    + destruct (redis_from_url _) as [connected|e] eqn:Hfrom.
      * destruct (redis_ping connected) as [[[]|e] client] eqn:Hping; cbn.
        -- split; [reflexivity|]. split; [reflexivity|]. split.
           ++ intros client'. split.
              ** intros [= <-]. split; [exact Hen|]. split; [reflexivity|]. eauto.
              ** intros (_ & _ & connected' & [= <-] & Hping').
                 rewrite Hping in Hping'. now injection Hping' as ->.
           ++ split; [intros Hn; now destruct Hn|]. split; [intros Hn; now destruct Hset|].
              intros Hn u [[= <-]|[[=]|[]]]. now apply Hurl.
        -- split; [reflexivity|]. split; [reflexivity|]. split.
           ++ intros client'. split; [discriminate|].
              intros (_ & _ & connected' & [= <-] & Hping').
              rewrite Hping in Hping'. discriminate Hping'.
           ++ split; [intros Hn; now destruct Hn|]. split; [intros Hn; now destruct Hset|].
              intros Hn u [[= <-]|[[=]|[]]]. now apply Hurl.
      * cbn. split; [reflexivity|]. split; [reflexivity|]. split.
        -- intros client'. split; [discriminate|].
           intros (_ & _ & connected' & [=] & _).
        -- split; [intros Hn; now destruct Hn|]. split; [intros Hn; now destruct Hset|].
           intros Hn u [[= <-]|[]]. now apply Hurl.
    + cbn. split; [reflexivity|]. split; [reflexivity|]. split.
      * intros client'. split; [discriminate|]. intros (_ & [=] & _).
      * split; [reflexivity|]. split; [intros Hn; now destruct Hset|]. intros _ u [].
  - cbn. split; [reflexivity|]. split; [reflexivity|]. split.
    + intros client'. split; [discriminate|]. intros (Hen & _). now apply Hflag in Hen.
    + split; [reflexivity|]. split; [auto|]. intros _ u [].
Qed.

End Factory.

(** * The performance monitor *)

(** ** Slices *)

Lemma slice_from_last {A : Type} (k : Z) (l : list A) :
  0 < k -> slice_from (- k) l = skipn (List.length l - Z.to_nat k) l.
Proof.
  intros Hk. unfold slice_from.
  replace (- k <? 0) with true by (symmetry; apply Z.ltb_lt; lia).
  f_equal. lia.
Qed.

Lemma slice_from_last_length {A : Type} (k : Z) (l : list A) :
  0 < k -> List.length (slice_from (- k) l) = Nat.min (Z.to_nat k) (List.length l).
Proof. intros Hk. rewrite slice_from_last, List.length_skipn by exact Hk. lia. Qed.

Lemma slice_from_last_short {A : Type} (k : Z) (l : list A) :
  0 < k -> Z.of_nat (List.length l) <= k -> slice_from (- k) l = l.
Proof.
  intros Hk Hlen. rewrite slice_from_last by exact Hk.
  replace (List.length l - Z.to_nat k)%nat with 0%nat by lia. reflexivity.
Qed.

(** The last [k] of a list that got one more element are the last [k]
    of: its last [k], and the element. *)
Lemma slice_from_last_snoc {A : Type} (k : Z) (l : list A) (x : A) :
  0 < k ->
  slice_from (- k) (slice_from (- k) l ++ [x]) = slice_from (- k) (l ++ [x]).
Proof.
  intros Hk. destruct (Z_le_gt_dec (Z.of_nat (List.length l)) k) as [Hshort|Hlong].
  - now rewrite (slice_from_last_short k l).
  - rewrite !slice_from_last by exact Hk.
    rewrite !List.length_app, List.length_skipn. cbn [List.length].
    rewrite !List.skipn_app, List.skipn_skipn, List.length_skipn.
    replace (List.length l - (List.length l - Z.to_nat k) + 1 - Z.to_nat k
             + (List.length l - Z.to_nat k))%nat
      with (List.length l + 1 - Z.to_nat k)%nat by lia.
    f_equal. f_equal; lia.
Qed.

(** ** record_metric *)

Section Recording.
Context {FL : Floats}.
Implicit Types (self : PerformanceMonitor) (r : recording).

Lemma record_all_snoc recordings r self :
  record_all (recordings ++ [r]) self =
    PerformanceMonitor.record_metric (recorded_name r) (recorded_duration r)
      (recorded_success r) (recorded_at r) (record_all recordings self).
Proof. unfold record_all. now rewrite fold_left_app. Qed.

Lemma record_all_threshold recordings self :
  slow_query_threshold (record_all recordings self) = slow_query_threshold self.
Proof.
  induction recordings as [|r recordings IH] using rev_ind; [reflexivity|].
  now rewrite record_all_snoc.
Qed.

(** A reset brings back the monitor the module starts with. *)
Lemma reset_metrics_is_new recordings :
  PerformanceMonitor.reset_metrics (record_all recordings PerformanceMonitor.__init__)
    = PerformanceMonitor.__init__.
Proof.
  unfold PerformanceMonitor.reset_metrics. now rewrite record_all_threshold.
Qed.

(** What one call does to [slow_queries]: the guard on the length
    changes nothing, cutting to the last 100 is the identity below it. *)
Lemma record_metric_slow_queries n d success now self :
  slow_queries (PerformanceMonitor.record_metric n d success now self) =
    if Qlt_bool (slow_query_threshold self) d
    then slice_from (-100) (slow_queries self ++ [SlowQuery n d now])
    else slow_queries self.
Proof.
  unfold PerformanceMonitor.record_metric. cbn [slow_queries].
  destruct (Qlt_bool (slow_query_threshold self) d); [|reflexivity].
  destruct (Z.ltb_spec 100 (Z.of_nat (List.length (slow_queries self ++ [SlowQuery n d now]))))
    as [Hlong|Hshort]; [reflexivity|].
  symmetry. apply (slice_from_last_short 100); lia.
Qed.

Lemma slow_ones_snoc threshold recordings r :
  slow_ones threshold (recordings ++ [r]) =
    (slow_ones threshold recordings
     ++ if Qlt_bool threshold (recorded_duration r)
        then [SlowQuery (recorded_name r) (recorded_duration r) (recorded_at r)]
        else [])%list.
Proof.
  unfold slow_ones. rewrite List.filter_app, List.map_app. cbn [List.filter].
  now destruct (Qlt_bool threshold (recorded_duration r)).
Qed.

Lemma record_all_slow_queries recordings self :
  (List.length (slow_queries self) <= 100)%nat ->
  slow_queries (record_all recordings self) =
    slice_from (-100) (slow_queries self ++ slow_ones (slow_query_threshold self) recordings).
Proof.
  intros Hlen. induction recordings as [|r recordings IH] using rev_ind.
  - cbn. rewrite app_nil_r. symmetry. apply (slice_from_last_short 100); lia.
  - rewrite record_all_snoc, record_metric_slow_queries, record_all_threshold, IH.
    rewrite slow_ones_snoc.
    destruct (Qlt_bool (slow_query_threshold self) (recorded_duration r)).
    + rewrite (slice_from_last_snoc 100) by lia. now rewrite app_assoc.
    + now rewrite app_nil_r.
Qed.

(** X15. The monitor remembers the last 100 slow calls. After any
    recordings made since the monitor was created or last reset,
    [slow_queries] holds the calls that took longer than the threshold
    of one second, oldest first, each with its name, duration and
    time stamp; all of them as long as there are no more than 100, and
    else the 100 most recent. A call of exactly one second is not
    slow. *)
Theorem slow_queries_keep_last_hundred (earlier recordings : list recording) :
  let self :=
    record_all recordings
      (PerformanceMonitor.reset_metrics (record_all earlier PerformanceMonitor.__init__)) in
  let slow := slow_ones 1 recordings in
  slow_queries self = skipn (List.length slow - 100) slow /\
  List.length (slow_queries self) = Nat.min 100 (List.length slow) /\
  ((List.length slow <= 100)%nat -> slow_queries self = slow) /\
  (forall q, In q slow -> (1 < duration q)%Q) /\
  slow_queries (record_all recordings PerformanceMonitor.__init__) = slow_queries self.
Proof.
  cbv zeta. rewrite reset_metrics_is_new.
  rewrite record_all_slow_queries by (cbn; lia).
  cbn [slow_queries PerformanceMonitor.__init__ slow_query_threshold app].
  rewrite (slice_from_last 100) by lia.
  split; [reflexivity|]. split; [rewrite List.length_skipn; lia|].
  split.
  - intros Hshort.
    replace (List.length (slow_ones 1 recordings) - Z.to_nat 100)%nat with 0%nat by lia.
    reflexivity.
  - split; [|reflexivity].
    intros q Hq. unfold slow_ones in Hq. apply in_map_iff in Hq as (r & <- & Hr).
    apply filter_In in Hr as [_ Hslow]. cbn [duration].
    unfold Qlt_bool in Hslow. apply negb_true_iff in Hslow.
    apply Qnot_le_lt. intros Hle. apply Qle_bool_iff in Hle. congruence.
Qed.

(** ** The metrics of a name *)

Lemma Qlt_bool_true (x y : Q) : Qlt_bool x y = true -> (x < y)%Q.
Proof.
  unfold Qlt_bool. intros H. apply negb_true_iff in H.
  apply Qnot_le_lt. intros Hle. apply Qle_bool_iff in Hle. congruence.
Qed.

Lemma Qlt_bool_false (x y : Q) : Qlt_bool x y = false -> (y <= x)%Q.
Proof.
  unfold Qlt_bool. intros H. apply negb_false_iff in H. now apply Qle_bool_iff.
Qed.





End Recording.

Section Metrics.
Context {FL : Floats}.




End Metrics.

(** ** get_slow_queries *)

Lemma insert_by_duration_perm x l : Permutation (insert_by_duration x l) (x :: l).
Proof.
  induction l as [|y l IH]; cbn [insert_by_duration]; [reflexivity|].
  destruct (Qlt_bool (duration x) (duration y)); [|reflexivity].
  rewrite IH. apply perm_swap.
Qed.

Lemma insert_by_duration_sorted x l :
  StronglySorted (fun a b => (duration b <= duration a)%Q) l ->
  StronglySorted (fun a b => (duration b <= duration a)%Q) (insert_by_duration x l).
Proof.
  induction 1 as [|y l Hsorted IH Hall]; cbn [insert_by_duration].
  - repeat constructor.
  - destruct (Qlt_bool (duration x) (duration y)) eqn:Hlt.
    + constructor; [exact IH|].
      apply List.Forall_forall. intros z Hz.
      apply (Permutation_in _ (insert_by_duration_perm x l)) in Hz as [<-|Hz].
      * apply Qlt_le_weak. now apply Qlt_bool_true.
      * rewrite List.Forall_forall in Hall. now apply Hall.
    + apply Qlt_bool_false in Hlt. constructor; [now constructor|].
      constructor; [exact Hlt|].
      apply List.Forall_forall. intros z Hz. rewrite List.Forall_forall in Hall.
      apply Qle_trans with (duration y); [now apply Hall|exact Hlt].
Qed.

(** The order among the entries of one duration is not touched. *)
Lemma insert_by_duration_stable (d : Q) x l :
  List.filter (fun q => Qeq_bool (duration q) d) (insert_by_duration x l)
    = List.filter (fun q => Qeq_bool (duration q) d) (x :: l).
Proof.
  induction l as [|y l IH]; cbn [insert_by_duration]; [reflexivity|].
  destruct (Qlt_bool (duration x) (duration y)) eqn:Hlt; [|reflexivity].
  cbn [List.filter] in *. rewrite IH.
  destruct (Qeq_bool (duration x) d) eqn:Hx; [|reflexivity].
  destruct (Qeq_bool (duration y) d) eqn:Hy; [|reflexivity].
  exfalso. apply Qeq_bool_iff in Hx, Hy. apply Qlt_bool_true in Hlt.
  rewrite Hx, Hy in Hlt. now apply Qlt_irrefl in Hlt.
Qed.

(** X18. [get_slow_queries(limit)] shows the [limit] most recent
    slow calls, the slowest first. What it returns is a rearrangement
    of the last [limit] entries of [slow_queries] (of all of them when
    there are fewer), in the order of falling duration, entries of one
    duration staying in the order recorded. A limit of zero does not
    give an empty list: it gives every entry; and a negative limit
    [-k] gives all but the [k] oldest. *)
Theorem get_slow_queries_sorted (limit : Z) (self : PerformanceMonitor) :
  let shown := PerformanceMonitor.get_slow_queries limit self in
  let recent :=
    if 0 <? limit then skipn (List.length (slow_queries self) - Z.to_nat limit) (slow_queries self)
    else if limit =? 0 then slow_queries self
    else skipn (Z.to_nat (- limit)) (slow_queries self) in
  Permutation shown recent /\
  StronglySorted (fun a b => (duration b <= duration a)%Q) shown /\
  (forall d, List.filter (fun q => Qeq_bool (duration q) d) shown
             = List.filter (fun q => Qeq_bool (duration q) d) recent) /\
  (0 < limit -> List.length shown = Nat.min (Z.to_nat limit) (List.length (slow_queries self))).
Proof.
  cbv zeta. unfold PerformanceMonitor.get_slow_queries.
  assert (Hslice : slice_from (- limit) (slow_queries self) =
    if 0 <? limit then skipn (List.length (slow_queries self) - Z.to_nat limit) (slow_queries self)
    else if limit =? 0 then slow_queries self
    else skipn (Z.to_nat (- limit)) (slow_queries self)).
  { destruct (Z.ltb_spec 0 limit) as [Hpos|Hneg]; [now apply slice_from_last|].
    unfold slice_from.
    replace (- limit <? 0) with false by (symmetry; apply Z.ltb_ge; lia).
    destruct (Z.eqb_spec limit 0) as [->|Hne].
    { replace (Z.to_nat (Z.min (- 0) (Z.of_nat (List.length (slow_queries self))))) with 0%nat
        by lia.
      reflexivity. }
    destruct (Z.min_spec (- limit) (Z.of_nat (List.length (slow_queries self))))
      as [[_ ->]|[Hlong ->]]; [reflexivity|].
    rewrite Nat2Z.id, !List.skipn_all2; [reflexivity|lia|lia]. }
  rewrite <- Hslice. clear Hslice.
  assert (Hperm : forall l, Permutation (sorted_by_duration l) l).
  { induction l as [|x l IH]; cbn [sorted_by_duration]; [reflexivity|].
    now rewrite insert_by_duration_perm, IH. }
  split; [apply Hperm|]. split; [|split].
  - generalize (slice_from (- limit) (slow_queries self)) as l.
    induction l as [|x l IH]; cbn [sorted_by_duration]; [constructor|].
    now apply insert_by_duration_sorted.
  - intros d. generalize (slice_from (- limit) (slow_queries self)) as l.
    induction l as [|x l IH]; cbn [sorted_by_duration]; [reflexivity|].
    rewrite insert_by_duration_stable. cbn [List.filter]. now rewrite IH.
  - intros Hpos. rewrite (Permutation_length (Hperm _)).
    now apply slice_from_last_length.
Qed.

(** ** monitor_performance *)

Section Monitored.
Context {FL : Floats} {O F : Type}.


End Monitored.

Example monitor_performance_example :
  let func : callable scalar (PerformanceMonitor * nat) :=
    Callable "app.analysis" "scan"
             (fun _ _ '(monitor, n) =>
                (match n with
                 | O => Raise (UserError 500)
                 | S _ => Ok (PyObj (SInt 7))
                 end, (monitor, S n))) in
  let call start_time end_time world :=
    monitor_performance (FL := exact_floats) None func start_time end_time "2024-05-01T09:30:00"
                        [] [] world in
  let '(first, world1) := call (10 # 1) (13 # 1) (PerformanceMonitor.__init__, 0%nat) in
  let '(second, world2) := call (20 # 1) (41 # 2) world1 in
  first = Raise (UserError 500) /\
  second = Ok (PyObj (SInt 7)) /\
  metrics (fst world2) !! "app.analysis.scan"
    = Some (Metric 2 (0 + 3 + (1 # 2)) (Some (1 # 2)) 3 1) /\
  slow_queries (fst world2) = [SlowQuery "app.analysis.scan" 3 "2024-05-01T09:30:00"] /\
  map report_count (map snd (map_to_list (PerformanceMonitor.get_metrics (FL := exact_floats) (fst world2))))
    = [2].
Proof. vm_compute. repeat split. Qed.

(** * The database helpers *)

Section SessionScope.
Context {S A : Type} {SO : SessionOps S}.

Ltac in_calls :=
  cbn [In app] in *;
  repeat match goal with
         | H : _ \/ _ |- _ => destruct H
         | H : _ /\ _ |- _ => destruct H
         | H : exists _, _ |- _ => destruct H
         | H : False |- _ => destruct H
         | H : Returned _ = Raised _ |- _ => discriminate H
         | H : Raised _ = Returned _ |- _ => discriminate H
         | H : CallCommit = _ |- _ => discriminate H
         | H : CallRollback = _ |- _ => discriminate H
         | H : CallClose = _ |- _ => discriminate H
         | H : Raised _ = Raised _ |- _ => injection H as H; subst
         | H : Returned _ = Returned _ |- _ => injection H as H; subst
         | H1 : is_exception ?e = true, H2 : is_exception ?e = false |- _ => congruence
         end.

(** X20. The session of a [with db_session_scope()] block is always
    closed, and closed last: whatever the block, the commit or the
    rollback do, [close] is called exactly once, after everything
    else. [commit] is called exactly when the block ended without an
    exception, and [rollback] exactly when an exception that derives
    from [Exception] ended the block or the commit; a
    [KeyboardInterrupt] closes the session without a rollback. The
    block's value comes out only after a commit and a close that both
    succeeded; an exception of the block is never swallowed, and it is
    the one that comes out when rollback and close succeed. *)
Theorem db_session_scope_always_closes (body : S -> completion A * S) (session : S) :
  let '(res, _, calls) := db_session_scope body session in
  let '(body_end, s1) := body session in
  (exists before, calls = (before ++ [CallClose])%list /\ ~ In CallClose before) /\
  (In CallCommit calls <-> exists a, body_end = Returned a) /\
  (In CallRollback calls <->
   exists e, is_exception e = true /\
     (body_end = Raised e \/
      ((exists a, body_end = Returned a) /\ fst (session_commit s1) = Raised e))) /\
  (forall a, res = Returned a ->
     body_end = Returned a /\ calls = [CallCommit; CallClose] /\
     fst (session_commit s1) = Returned tt) /\
  (forall e, body_end = Raised e ->
     calls = (if is_exception e then [CallRollback; CallClose] else [CallClose]) /\
     exists e', res = Raised e' /\
       ((forall s, fst (session_rollback s) = Returned tt) ->
        (forall s, fst (session_close s) = Returned tt) -> e' = e)).
Proof.
  unfold db_session_scope.
  destruct (body session) as [[a|e] s1].
  - destruct (session_commit s1) as [[[]|e] s2] eqn:Hcommit; cbn [fst].
    + destruct (session_close s2) as [[[]|e'] s3]; cbn [app].
      * split; [exists [CallCommit]; split; [reflexivity|in_calls; intuition discriminate]|].
        split; [split; [eauto|intros _; now left]|].
        split; [split; [intros H; in_calls|intros H; in_calls]|].
        split; [intros a' [= <-]; auto|intros ? [=]].
      * split; [exists [CallCommit]; split; [reflexivity|in_calls; intuition discriminate]|].
        split; [split; [eauto|intros _; now left]|].
        split; [split; [intros H; in_calls|intros H; in_calls]|].
        split; [intros ? [=]|intros ? [=]].
    + destruct (is_exception e) eqn:Hexc.
      * destruct (session_rollback s2) as [[[]|e1] s3];
          destruct (session_close s3) as [[[]|e2] s4]; cbn [app];
          (split; [exists [CallCommit; CallRollback]; split;
                   [reflexivity|in_calls; intuition discriminate]|]);
          (split; [split; [eauto|intros _; now left]|]);
          (split; [split; [intros _; exists e; split; [exact Hexc|right; eauto]
                          |intros _; right; now left]|]);
          (split; [intros ? [=]|intros ? [=]]).
      * destruct (session_close s2) as [[[]|e2] s4]; cbn [app];
          (split; [exists [CallCommit]; split; [reflexivity|in_calls; intuition discriminate]|]);
          (split; [split; [eauto|intros _; now left]|]);
          (split; [split; [intros H; in_calls|intros H; in_calls]|]);
          (split; [intros ? [=]|intros ? [=]]).
  - destruct (is_exception e) eqn:Hexc.
    + destruct (session_rollback s1) as [[[]|e1] s3] eqn:Hrollback;
        destruct (session_close s3) as [[[]|e2] s4] eqn:Hclose; cbn [app];
        (split; [exists [CallRollback]; split; [reflexivity|in_calls; intuition discriminate]|]);
        (split; [split; [intros H; in_calls|intros H; in_calls]|]);
        (split; [split; [intros _; exists e; split; [exact Hexc|now left]|intros _; now left]|]);
        (split; [intros ? [=]|]);
        intros e0 [= <-]; rewrite Hexc; (split; [reflexivity|]);
        eexists; (split; [reflexivity|]); intros Hr Hc;
        try (specialize (Hr s1); rewrite Hrollback in Hr; discriminate Hr);
        try (specialize (Hc s3); rewrite Hclose in Hc; discriminate Hc);
        reflexivity.
    + destruct (session_close s1) as [[[]|e2] s4] eqn:Hclose; cbn [app];
        (split; [exists []; split; [reflexivity|in_calls; intuition discriminate]|]);
        (split; [split; [intros H; in_calls|intros H; in_calls]|]);
        (split; [split; [intros H; in_calls|intros H; in_calls]|]);
        (split; [intros ? [=]|]);
        intros e0 [= <-]; rewrite Hexc; (split; [reflexivity|]);
        eexists; (split; [reflexivity|]); intros Hr Hc;
        try (specialize (Hc s1); rewrite Hclose in Hc; discriminate Hc);
        reflexivity.
Qed.

End SessionScope.

(** ** query_with_pagination *)

Lemma ceiling_division (total per_page : Z) :
  0 < per_page ->
  let n := (total + per_page - 1) / per_page in
  (n - 1) * per_page < total <= n * per_page.
Proof.
  intros Hpos. cbv zeta.
  pose proof (Z.mul_div_le (total + per_page - 1) per_page Hpos).
  pose proof (Z.mul_succ_div_gt (total + per_page - 1) per_page Hpos).
  nia.
Qed.

Section Pagination.
Context {T Row : Type} {QY : Query T Row}.

(** X21. The number of pages is the count divided by the page size,
    rounded up. When the two queries succeed and the page size is
    positive, the call returns the items fetched with the limit
    [per_page] and the offset [(page - 1) * per_page], the count, and
    a number of pages [n] with [(n - 1) * per_page < total <= n *
    per_page]: no page for an empty result, and a last page that may
    be short. With a page size of zero the call raises
    [ZeroDivisionError], and only after both queries have run. *)
Theorem query_with_pagination_counts_pages (query : T) (page per_page total : Z)
    (fetched : list Row) :
  query_count query = Returned total ->
  query_limit_offset_all per_page ((page - 1) * per_page) query = Returned fetched ->
  0 <= total ->
  let '(res, calls) := query_with_pagination query page per_page in
  calls = [CallCount; CallAll per_page ((page - 1) * per_page)] /\
  (per_page = 0 -> res = Raised ZeroDivisionError) /\
  (0 < per_page ->
   exists n,
     res = Returned (Pagination fetched total page per_page n) /\
     (n - 1) * per_page < total <= n * per_page /\
     0 <= n /\ (n = 0 <-> total = 0)).
Proof.
  intros Hcount Hall Htotal. unfold query_with_pagination, floordiv.
  rewrite Hcount, Hall.
  destruct (Z.eqb_spec per_page 0) as [->|Hne].
  - split; [reflexivity|]. split; [reflexivity|lia].
  - split; [reflexivity|]. split; [contradiction|].
    intros Hpos. eexists. split; [reflexivity|].
    pose proof (ceiling_division total per_page Hpos) as Hceil. cbv zeta in Hceil.
    split; [exact Hceil|]. split; nia.
Qed.

End Pagination.

Lemma query_with_pagination_counts_pages_witness :
  let rows : list Z := [10; 20; 30; 40; 50] in
  query_count (Query := table_query Z) rows = Returned 5 /\
  query_limit_offset_all (Query := table_query Z) 2 ((3 - 1) * 2) rows = Returned [50] /\
  let '(res, calls) := query_with_pagination (QY := table_query Z) rows 3 2 in
  calls = [CallCount; CallAll 2 ((3 - 1) * 2)] /\
  (2 = 0 -> res = Raised ZeroDivisionError) /\
  (0 < 2 ->
   exists n,
     res = Returned (Pagination [50] 5 3 2 n) /\
     (n - 1) * 2 < 5 <= n * 2 /\
     0 <= n /\ (n = 0 <-> 5 = 0)).
Proof.
  cbv zeta. split; [reflexivity|]. split; [reflexivity|].
  apply (query_with_pagination_counts_pages (QY := table_query Z) [10; 20; 30; 40; 50] 3 2 5 [50]);
    [reflexivity|reflexivity|lia].
Defined.

(** ** Pages of a table *)

Section Pages.
Context {Row : Type}.
Implicit Types (rows : list Row).




End Pages.


(** * The added models at concrete inputs *)

Example create_cache_manager_examples :
  let default_url := "redis://localhost:6379/0" in
  (* the flag in capitals, a server that answers *)
  create_cache_manager (O := scalar) (RP := fake_redis_package) {["USE_REDIS_CACHE" := "TRUE"]}
    = (CacheManager.__init__ (Some ∅), [CallFromUrl default_url; CallPing]) /\
  (* a server that does not answer the ping *)
  create_cache_manager (O := scalar) (RP := down_redis_package)
      (<["REDIS_URL" := "redis://cache:6379/1"]> {["USE_REDIS_CACHE" := "true"]})
    = (CacheManager.__init__ None, [CallFromUrl "redis://cache:6379/1"; CallPing]) /\
  (* a flag that is not the word true, and no flag *)
  create_cache_manager (O := scalar) (RP := fake_redis_package) {["USE_REDIS_CACHE" := "1"]}
    = (CacheManager.__init__ None, []) /\
  create_cache_manager (O := scalar) (RP := fake_redis_package) ∅
    = (CacheManager.__init__ None, []).
Proof. vm_compute. repeat split. Qed.

Example get_slow_queries_examples :
  let a := SlowQuery "a" (3 # 2) "t1" in
  let b := SlowQuery "b" (5 # 2) "t2" in
  let c := SlowQuery "c" (3 # 2) "t3" in
  let d := SlowQuery "d" (2 # 1) "t4" in
  let self := Monitor ∅ 1 [a; b; c; d] in
  PerformanceMonitor.get_slow_queries 20 self = [b; d; a; c] /\
  PerformanceMonitor.get_slow_queries 2 self = [d; c] /\
  PerformanceMonitor.get_slow_queries 0 self = [b; d; a; c] /\
  PerformanceMonitor.get_slow_queries (-1) self = [b; d; c].
Proof. vm_compute. repeat split. Qed.

Example db_session_scope_examples :
  let run (body : unit -> completion Z * unit) :=
    let '(res, _, calls) := db_session_scope (SO := quiet_session) body tt in (res, calls) in
  run (fun s => (Returned 7, s)) = (Returned 7, [CallCommit; CallClose]) /\
  run (fun s => (Raised (ApplicationError 1), s))
    = (Raised (ApplicationError 1), [CallRollback; CallClose]) /\
  run (fun s => (Raised KeyboardInterrupt, s)) = (Raised KeyboardInterrupt, [CallClose]).
Proof. vm_compute. repeat split. Qed.

Example query_with_pagination_examples :
  let rows : list Z := [10; 20; 30; 40; 50] in
  let ask page per_page := fst (query_with_pagination (QY := table_query Z) rows page per_page) in
  ask 1 2 = Returned (Pagination [10; 20] 5 1 2 3) /\
  ask 3 2 = Returned (Pagination [50] 5 3 2 3) /\
  ask 4 2 = Returned (Pagination [] 5 4 2 3) /\
  ask 1 50 = Returned (Pagination rows 5 1 50 1) /\
  ask 1 0 = Raised ZeroDivisionError.
Proof. vm_compute. repeat split. Qed.
